(** * cocoonmail-go: request construction, regional routing, address validation

    A shallow embedding of [cocoonmail.go] and [helpers/mail/main.go].

    Go strings are byte sequences: they are modelled as [string] (a list of
    8-bit [ascii]), [len] as [String.length].  A Go [map[string]string] is a
    [gmap string string].  A Go result pair [(v, err)] is a Rocq pair whose
    second component is [option error] ([None] is Go's [nil] error). *)

From Stdlib Require Import Ascii String.
From stdpp Require Import gmap strings list pretty.

(** ** Bytes *)

Definition byte_le (a b : ascii) : bool := (nat_of_ascii a <=? nat_of_ascii b)%nat.

(** [lo <= c && c <= hi] on bytes. *)
Definition between (lo hi c : ascii) : bool := byte_le lo c && byte_le c hi.

(** [c] is one of the bytes of [set] (a Go [switch c { case ... }]). *)
Fixpoint one_of (set : string) (c : ascii) : bool :=
  match set with
  | EmptyString => false
  | String x set' => Ascii.eqb c x || one_of set' c
  end.

(** The double quote, as a one-byte string. *)
Definition dquote : string := String (ascii_of_nat 34) EmptyString.

(** [s[:n]] and [s[n:]] for [n <= len(s)]. *)
Fixpoint slice_to (n : nat) (s : string) : string :=
  match n, s with
  | S k, String c s' => String c (slice_to k s')
  | _, _ => EmptyString
  end.

Fixpoint slice_from (n : nat) (s : string) : string :=
  match n, s with
  | S k, String _ s' => slice_from k s'
  | _, _ => s
  end.

(** ** Go's [strings] package, the functions the program and the URL parser
    call.  An index result of [-1] is [None]. *)
Module strings.

Fixpoint HasPrefix (s prefix : string) {struct prefix} : bool :=
  match prefix, s with
  | EmptyString, _ => true
  | String p prefix', String c s' => Ascii.eqb c p && HasPrefix s' prefix'
  | String _ _, EmptyString => false
  end.

Definition HasSuffix (s suffix : string) : bool :=
  (String.length suffix <=? String.length s)%nat
  && String.eqb (slice_from (String.length s - String.length suffix) s) suffix.

Fixpoint Index (s substr : string) {struct s} : option nat :=
  if HasPrefix s substr then Some 0
  else match s with
       | EmptyString => None
       | String _ s' => option_map S (Index s' substr)
       end.

Fixpoint LastIndex (s substr : string) {struct s} : option nat :=
  match s with
  | EmptyString => if HasPrefix s substr then Some 0 else None
  | String _ s' =>
      match LastIndex s' substr with
      | Some i => Some (S i)
      | None => if HasPrefix s substr then Some 0 else None
      end
  end.

Definition Contains (s substr : string) : bool :=
  match Index s substr with Some _ => true | None => false end.

(** Non-overlapping occurrences of a non-empty [substr]; [skip] is the
    number of bytes of the last match still to step over. *)
Fixpoint count_from (s substr : string) (skip : nat) : nat :=
  match s with
  | EmptyString => 0
  | String _ s' =>
      match skip with
      | S k => count_from s' substr k
      | O => if HasPrefix s substr
             then S (count_from s' substr (String.length substr - 1))
             else count_from s' substr 0
      end
  end.

Definition Count (s substr : string) : nat := count_from s substr 0.

Definition Cut (s sep : string) : string * string * bool :=
  match Index s sep with
  | Some i => (slice_to i s, slice_from (i + String.length sep) s, true)
  | None => (s, EmptyString, false)
  end.

(** [Split] for a non-empty separator: [cur] is the piece being read. *)
Fixpoint split_from (s sep : string) (skip : nat) (cur : string) : list string :=
  match s with
  | EmptyString => [cur]
  | String c s' =>
      match skip with
      | S k => split_from s' sep k cur
      | O => if HasPrefix s sep
             then cur :: split_from s' sep (String.length sep - 1) EmptyString
             else split_from s' sep 0 (cur +:+ String c EmptyString)
      end
  end.

Definition Split (s sep : string) : list string := split_from s sep 0 EmptyString.

Definition lower (c : ascii) : ascii :=
  if between "A" "Z" c then ascii_of_nat (nat_of_ascii c + 32) else c.

(** ASCII lower-casing; the URL parser applies it to a scheme, which holds
    ASCII letters, digits, [+], [-] and [.] only. *)
Fixpoint ToLower (s : string) : string :=
  match s with
  | EmptyString => EmptyString
  | String c s' => String (lower c) (ToLower s')
  end.

End strings.

(** ** Go [error] values *)

Inductive error : Type :=
| errorString (msg : string)           (* errors.New, fmt.Errorf *)
| EscapeError (s : string)             (* url.EscapeError *)
| InvalidHostError (s : string)        (* url.InvalidHostError *)
| UrlError (Op URL : string) (Err : error) (* *url.Error *)
| errorfQ (format arg : string)
  (* fmt.Errorf(format, arg) for a format with one %q verb: the message is
     format with strconv.Quote(arg) in place of the verb, kept unrendered *)
| errorfV (format : string) (err : error).
  (* fmt.Errorf(format, err) for a format with one %v verb, kept unrendered *)

(** A Go call returning [(v, error)], before the pair is built: [inl err]
    when the error is not nil. *)
Definition result (A : Type) : Type := error + A.

Definition bind {A B : Type} (m : result A) (k : A -> result B) : result B :=
  match m with
  | inl err => inl err
  | inr a => k a
  end.

Notation "'let?' x ':=' m 'in' k" := (bind m (fun x => k))
  (at level 10, x name, m at level 100, k at level 200, only parsing).
Notation "'let?' ( x , y ) ':=' m 'in' k" := (bind m (fun p => let '(x, y) := p in k))
  (at level 10, x name, y name, m at level 100, k at level 200, only parsing).

(** [fmt.Errorf(format, n)] for a format with one [%d] verb. *)
Definition Errorf_d (format : string) (n : nat) : error :=
  let '(before, after, _) := strings.Cut format "%d" in
  errorString (before +:+ pretty n +:+ after).

(** ** Go's [net/url]: [url.Parse], as far as [extractEndpoint] depends on it

    The definitions follow [net/url/url.go] (Go 1.22) function by function.
    [RawPath], [RawFragment] and [OmitHost] are hints for re-encoding a URL
    and are left out of [URL]; nothing here reads them. *)
Module url.

Import strings.

Inductive encoding : Type :=
| encodePath | encodePathSegment | encodeHost | encodeZone
| encodeUserPassword | encodeQueryComponent | encodeFragment.

Definition is_mode (m m' : encoding) : bool :=
  match m, m' with
  | encodePath, encodePath | encodePathSegment, encodePathSegment
  | encodeHost, encodeHost | encodeZone, encodeZone
  | encodeUserPassword, encodeUserPassword
  | encodeQueryComponent, encodeQueryComponent
  | encodeFragment, encodeFragment => true
  | _, _ => false
  end.

Record Userinfo : Type := mkUserinfo
  { username : string; password : string; passwordSet : bool }.

Record URL : Type := mkURL
  { Scheme : string;
    Opaque : string;
    User : option Userinfo;
    Host : string;
    Path : string;
    ForceQuery : bool;
    RawQuery : string;
    Fragment : string }.

Definition ishex (c : ascii) : bool :=
  between "0" "9" c || between "a" "f" c || between "A" "F" c.

Definition unhex (c : ascii) : nat :=
  if between "0" "9" c then nat_of_ascii c - nat_of_ascii "0"
  else if between "a" "f" c then nat_of_ascii c - nat_of_ascii "a" + 10
  else if between "A" "F" c then nat_of_ascii c - nat_of_ascii "A" + 10
  else 0.

Definition alnum (c : ascii) : bool :=
  between "a" "z" c || between "A" "Z" c || between "0" "9" c.

(** The byte list of the quoted cases of [shouldEscape]'s host switch:
    the sub-delims, [:], [[], []], [<], [>] and the double quote. *)
Definition host_allowed : string := "!$&'()*+,;=:[]<>" +:+ dquote.

Definition shouldEscape (c : ascii) (mode : encoding) : bool :=
  if alnum c then false
  else if (is_mode mode encodeHost || is_mode mode encodeZone) && one_of host_allowed c
  then false
  else if one_of "-_.~" c then false
  else if one_of "$&+,/:;=?@" c
          && (is_mode mode encodePath || is_mode mode encodePathSegment
              || is_mode mode encodeUserPassword
              || is_mode mode encodeQueryComponent || is_mode mode encodeFragment)
  then match mode with
       | encodePath => Ascii.eqb c "?"
       | encodePathSegment => one_of "/;,?" c
       | encodeUserPassword => one_of "@/?:" c
       | encodeQueryComponent => true
       | _ => false
       end
  else if is_mode mode encodeFragment && one_of "!()*" c then false
  else true.

(** First loop of [unescape]: count the [%], check that they are well
    formed.  [n] and [hasPlus] are the loop's variables. *)
Fixpoint unescape_check (s : string) (mode : encoding) (n : nat) (hasPlus : bool)
  : result (nat * bool) :=
  match s with
  | EmptyString => inr (n, hasPlus)
  | String c s1 =>
      if Ascii.eqb c "%" then
        match s1 with
        | String a (String b s3) =>
            if negb (ishex a) || negb (ishex b) then inl (EscapeError (slice_to 3 s))
            else if is_mode mode encodeHost && (unhex a <? 8)%nat
                    && negb (String.eqb (slice_to 3 s) "%25")
            then inl (EscapeError (slice_to 3 s))
            else if is_mode mode encodeZone
                    && negb (String.eqb (slice_to 3 s) "%25")
                    && negb (Ascii.eqb (ascii_of_nat (16 * unhex a + unhex b)) " ")
                    && shouldEscape (ascii_of_nat (16 * unhex a + unhex b)) encodeHost
            then inl (EscapeError (slice_to 3 s))
            else unescape_check s3 mode (S n) hasPlus
        | _ => inl (EscapeError (slice_to 3 s))
        end
      else if Ascii.eqb c "+" then
        unescape_check s1 mode n (is_mode mode encodeQueryComponent)
      else if (is_mode mode encodeHost || is_mode mode encodeZone)
              && (nat_of_ascii c <? 128)%nat && shouldEscape c encodeHost
      then inl (InvalidHostError (String c EmptyString))
      else unescape_check s1 mode n hasPlus
  end.

(** Second loop of [unescape], run on a string the first loop accepted
    (every [%] is followed by two bytes). *)
Fixpoint unescape_decode (s : string) (mode : encoding) : string :=
  match s with
  | EmptyString => EmptyString
  | String c s1 =>
      if Ascii.eqb c "%" then
        match s1 with
        | String a (String b s3) =>
            String (ascii_of_nat (16 * unhex a + unhex b)) (unescape_decode s3 mode)
        | _ => EmptyString
        end
      else if Ascii.eqb c "+" then
        String (if is_mode mode encodeQueryComponent then " " else "+")%char
               (unescape_decode s1 mode)
      else String c (unescape_decode s1 mode)
  end.

Definition unescape (s : string) (mode : encoding) : result string :=
  let? (n, hasPlus) := unescape_check s mode 0 false in
  if (n =? 0)%nat && negb hasPlus then inr s
  else inr (unescape_decode s mode).

Fixpoint stringContainsCTLByte (s : string) : bool :=
  match s with
  | EmptyString => false
  | String b s' =>
      if (nat_of_ascii b <? nat_of_ascii " ")%nat || Ascii.eqb b (ascii_of_nat 127)
      then true
      else stringContainsCTLByte s'
  end.

(** The loop of [getScheme]: [s] is [rawURL[i:]]. *)
Fixpoint getScheme_from (rawURL : string) (i : nat) (s : string)
  : result (string * string) :=
  match s with
  | EmptyString => inr (EmptyString, rawURL)
  | String c s' =>
      if between "a" "z" c || between "A" "Z" c then getScheme_from rawURL (S i) s'
      else if between "0" "9" c || one_of "+-." c then
        if (i =? 0)%nat then inr (EmptyString, rawURL)
        else getScheme_from rawURL (S i) s'
      else if Ascii.eqb c ":" then
        if (i =? 0)%nat then inl (errorString "missing protocol scheme")
        else inr (slice_to i rawURL, slice_from (S i) rawURL)
      else inr (EmptyString, rawURL)
  end.

Definition getScheme (rawURL : string) : result (string * string) :=
  getScheme_from rawURL 0 rawURL.

Fixpoint all_digits (s : string) : bool :=
  match s with
  | EmptyString => true
  | String b s' => if between "0" "9" b then all_digits s' else false
  end.

Definition validOptionalPort (port : string) : bool :=
  match port with
  | EmptyString => true
  | String c digits => if Ascii.eqb c ":" then all_digits digits else false
  end.

(** [range s] yields a rune of at least 0x80 for every byte outside ASCII,
    and no such rune is accepted: the loop can run over the bytes. *)
Fixpoint validUserinfo (s : string) : bool :=
  match s with
  | EmptyString => true
  | String r s' =>
      if alnum r || one_of "-._:~!$&'()*+,;=%@" r then validUserinfo s'
      else false
  end.

Definition parseHost (host : string) : result string :=
  if HasPrefix host "[" then
    match LastIndex host "]" with
    | None => inl (errorString "missing ']' in host")
    | Some i =>
        let colonPort := slice_from (S i) host in
        if negb (validOptionalPort colonPort)
        then inl (errorfQ "invalid port %q after host" colonPort)
        else
          match Index (slice_to i host) "%25" with
          | Some zone =>
              let? host1 := unescape (slice_to zone host) encodeHost in
              let? host2 := unescape (slice_to (i - zone) (slice_from zone host)) encodeZone in
              let? host3 := unescape (slice_from i host) encodeHost in
              inr (host1 +:+ host2 +:+ host3)
          | None => unescape host encodeHost
          end
    end
  else
    match LastIndex host ":" with
    | Some i =>
        let colonPort := slice_from i host in
        if negb (validOptionalPort colonPort)
        then inl (errorfQ "invalid port %q after host" colonPort)
        else unescape host encodeHost
    | None => unescape host encodeHost
    end.

Definition parseAuthority (authority : string) : result (option Userinfo * string) :=
  match LastIndex authority "@" with
  | None =>
      let? host := parseHost authority in
      inr (None, host)
  | Some i =>
      let? host := parseHost (slice_from (S i) authority) in
      let userinfo := slice_to i authority in
      if negb (validUserinfo userinfo)
      then inl (errorString "net/url: invalid userinfo")
      else if negb (Contains userinfo ":") then
        let? userinfo' := unescape userinfo encodeUserPassword in
        inr (Some (mkUserinfo userinfo' EmptyString false), host)
      else
        let '(username, password, _) := Cut userinfo ":" in
        let? username' := unescape username encodeUserPassword in
        let? password' := unescape password encodeUserPassword in
        inr (Some (mkUserinfo username' password' true), host)
  end.

Definition setPath (u : URL) (p : string) : result URL :=
  let? path := unescape p encodePath in
  inr (mkURL (Scheme u) (Opaque u) (User u) (Host u) path
             (ForceQuery u) (RawQuery u) (Fragment u)).

Definition setFragment (u : URL) (f : string) : result URL :=
  let? frag := unescape f encodeFragment in
  inr (mkURL (Scheme u) (Opaque u) (User u) (Host u) (Path u)
             (ForceQuery u) (RawQuery u) frag).

Definition parse (rawURL : string) (viaRequest : bool) : result URL :=
  if stringContainsCTLByte rawURL
  then inl (errorString "net/url: invalid control character in URL")
  else if String.eqb rawURL EmptyString && viaRequest
  then inl (errorString "empty url")
  else if String.eqb rawURL "*"
  then inr (mkURL EmptyString EmptyString None EmptyString "*" false
                  EmptyString EmptyString)
  else
    let? (scheme0, rest0) := getScheme rawURL in
    let scheme := ToLower scheme0 in
    let '(rest, rawQuery, forceQuery) :=
      if HasSuffix rest0 "?" && (Count rest0 "?" =? 1)%nat
      then (slice_to (String.length rest0 - 1) rest0, EmptyString, true)
      else let '(r, q, _) := Cut rest0 "?" in (r, q, false) in
    if negb (HasPrefix rest "/") && negb (String.eqb scheme EmptyString)
    then (* rootless paths are opaque *)
      inr (mkURL scheme rest None EmptyString EmptyString forceQuery
                 rawQuery EmptyString)
    else if negb (HasPrefix rest "/") && viaRequest
    then inl (errorString "invalid URI for request")
    else if negb (HasPrefix rest "/") && Contains (fst (fst (Cut rest "/"))) ":"
    then inl (errorString "first path segment in URL cannot contain colon")
    else if (negb (String.eqb scheme EmptyString)
             || negb viaRequest && negb (HasPrefix rest "///"))
            && HasPrefix rest "//"
    then
      let authority0 := slice_from 2 rest in
      let '(authority, rest') :=
        match Index authority0 "/" with
        | Some i => (slice_to i authority0, slice_from i authority0)
        | None => (authority0, EmptyString)
        end in
      let? (user, host) := parseAuthority authority in
      setPath (mkURL scheme EmptyString user host EmptyString forceQuery
                     rawQuery EmptyString) rest'
    else
      setPath (mkURL scheme EmptyString None EmptyString EmptyString forceQuery
                     rawQuery EmptyString) rest.

Definition Parse (rawURL : string) : result URL :=
  let '(u, frag, _) := Cut rawURL "#" in
  match parse u false with
  | inl err => inl (UrlError "parse" u err)
  | inr url =>
      if String.eqb frag EmptyString then inr url
      else match setFragment url frag with
           | inl err => inl (UrlError "parse" rawURL err)
           | inr url' => inr url'
           end
  end.

End url.

(** ** Package [rest]: the request descriptor *)
Module rest.

(** Modelled from the spec: package [rest] of this repository is not among
    the sources; [cocoonmail.go] only names [rest.Request] and its fields
    [Method] and [BaseURL].  The spec's Request Descriptor has a method, a
    base URL, headers (a mapping from string to string) and a body (a byte
    sequence).  [Method] is the string the code assigns to it
    ([request.Method = "POST"]), empty until set. *)
Record Request : Type := mkRequest
  { Method : string;
    BaseURL : string;
    Headers : gmap string string;
    Body : list ascii }.

End rest.

(** ** [cocoonmail.go] *)
Module cocoonmail.

Import rest.

Record CocoonmailOptions : Type := mkCocoonmailOptions
  { Key : string;
    Endpoint : string;
    Host : string;
    Subuser : string }.

(** cocoonmail host map for different regions *)
Definition allowedRegionsHostMap : gmap string string :=
  <["eu" := "https://api.eu.cocoonmail.com"]>
    (<["global" := "https://webhook.cocoonmail.com"]> ∅).

(** Modelled from the spec: the struct [options] is declared outside the
    sources; [createCocoonmailRequest] fills it positionally with the
    authorization value, the endpoint, the host and the subuser, and names
    its field [Host]. *)
Record options : Type := mkOptions
  { opt_Auth : string;
    opt_Endpoint : string;
    opt_Host : string;
    opt_Subuser : string }.

Section Builder.

(** The name of the on-behalf-of header, a fixed constant of the
    repository that the sources do not show. *)
Variable onBehalfOfHeader : string.

(** Modelled from the spec: [requestNew] is defined outside the sources.
    Per the spec's Request Builder: the headers carry the authorization
    value under [Authorization]; a non-empty subuser adds the
    on-behalf-of header and an empty one leaves it out; the base URL is
    the resolved host followed by the endpoint.  Method and body are
    left at their zero values. *)
Definition requestNew (o : options) : Request :=
  let requestHeaders : gmap string string := {[ "Authorization" := opt_Auth o ]} in
  let requestHeaders :=
    if (String.length (opt_Subuser o) =? 0)%nat then requestHeaders
    else <[onBehalfOfHeader := opt_Subuser o]> requestHeaders in
  mkRequest EmptyString (opt_Host o +:+ opt_Endpoint o) requestHeaders [].

Definition createCocoonmailRequest (sgOptions : CocoonmailOptions) : Request :=
  let options :=
    mkOptions ("Bearer " +:+ Key sgOptions) (Endpoint sgOptions)
              (Host sgOptions) (Subuser sgOptions) in
  let options :=
    if String.eqb (opt_Host options) EmptyString
    then mkOptions (opt_Auth options) (opt_Endpoint options)
                   "https://webhook.cocoonmail.com" (opt_Subuser options)
    else options in
  requestNew options.

Definition GetRequest (key endpoint host : string) : Request :=
  createCocoonmailRequest (mkCocoonmailOptions key endpoint host EmptyString).

Definition GetRequestSubuser (key endpoint host subuser : string) : Request :=
  createCocoonmailRequest (mkCocoonmailOptions key endpoint host subuser).

(** [Client] wraps the request; [NewSendClient] returns a pointer to a
    fresh one, of which only the value is kept. *)
Record Client : Type := mkClient { client_Request : Request }.

Definition NewSendClient (key : string) : Client :=
  let request := GetRequest key "/webhook/mail/send" EmptyString in
  mkClient (mkRequest "POST" (BaseURL request) (Headers request) (Body request)).

End Builder.

Definition extractEndpoint (link : string) : string * option error :=
  match url.Parse link with
  | inl err => (EmptyString, Some err)
  | inr parsedURL => (url.Path parsedURL, None)
  end.

(** The text of the error for a region outside the map. *)
Definition region_error_text : string :=
  "error: region can only be " +:+ dquote +:+ "eu" +:+ dquote
    +:+ " or " +:+ dquote +:+ "global" +:+ dquote.

Definition SetDataResidency (request : Request) (region : string)
  : Request * option error :=
  match allowedRegionsHostMap !! region with
  | None => (request, Some (errorString region_error_text))
  | Some regionalHost =>
      match extractEndpoint (BaseURL request) with
      | (_, Some err) => (request, Some err)
      | (endpoint, None) =>
          (mkRequest (Method request) (regionalHost +:+ endpoint)
                     (Headers request) (Body request), None)
      end
  end.

End cocoonmail.

(** ** Go values that can be nil

    A slice or a map is either nil or made; a made one can be empty.  A
    pointer result is [None] for nil, else the value it points to: nothing
    proved below depends on the identity of a pointer. *)

Inductive slice (A : Type) : Type :=
| slice_nil
| slice_make (elems : list A).
Arguments slice_nil {A}.
Arguments slice_make {A} elems.

Inductive gomap (V : Type) : Type :=
| map_nil
| map_make (m : gmap string V).
Arguments map_nil {V}.
Arguments map_make {V} m.

Definition ptr (A : Type) : Type := option A.

Definition slice_len {A : Type} (s : slice A) : nat :=
  match s with
  | slice_nil => 0
  | slice_make elems => List.length elems
  end.

Definition map_len {V : Type} (m : gomap V) : nat :=
  match m with
  | map_nil => 0
  | map_make m' => size m'
  end.

Definition slice_is_nil {A : Type} (s : slice A) : bool :=
  match s with slice_nil => true | slice_make _ => false end.

Definition map_is_nil {V : Type} (m : gomap V) : bool :=
  match m with map_nil => true | map_make _ => false end.

(** A call either returns or panics. *)
Inductive outcome (A : Type) : Type :=
| Returned (a : A)
| Panicked (msg : string).
Arguments Returned {A} a.
Arguments Panicked {A} msg.

(** [append(s, xs...)]: with nothing to add the slice itself comes back, a
    nil slice included. *)
Definition append_slice {A : Type} (s : slice A) (xs : list A) : slice A :=
  match s, xs with
  | slice_nil, [] => slice_nil
  | slice_nil, _ :: _ => slice_make xs
  | slice_make elems, _ => slice_make (elems ++ xs)
  end.

(** The elements of a slice, none for a nil one. *)
Definition slice_elems {A : Type} (s : slice A) : list A :=
  match s with
  | slice_nil => []
  | slice_make elems => elems
  end.

(** [v, ok := m[key]]: reading a nil map finds nothing. *)
Definition map_index {V : Type} (m : gomap V) (key : string) : option V :=
  match m with
  | map_nil => None
  | map_make m' => m' !! key
  end.

(** [m[key] = value]: a write to a nil map panics. *)
Definition map_assign {V : Type} (m : gomap V) (key : string) (value : V)
  : outcome (gomap V) :=
  match m with
  | map_nil => Panicked "assignment to entry in nil map"
  | map_make m' => Returned (map_make (<[key := value]> m'))
  end.

(** ** Go's [net/mail]: the result type of [mail.ParseAddress], and its
    behaviour on plain ASCII mailboxes

    [ParseEmail] hands its input to [mail.ParseAddress] of the standard
    library and works on the [Address] that comes back.  The definitions of
    [helpers/mail] below take the parser as a variable, so what is proved of
    them holds for the library's parser whatever it accepts.

    [ParseAddress] here follows [net/mail/message.go] on the inputs of the
    form [local@domain] and [phrase <local@domain>] whose local part is a
    dot-atom or a quoted string and whose domain is a dot-atom, written in
    ASCII without comments, groups, domain literals or encoded words; inputs
    outside that fragment are turned down by [in_fragment].  It serves closed
    examples. *)
Module netmail.

Import strings.

(** [mail.Address]; [Addr] is its field [Address]. *)
Record Address : Type := mkAddress { Name : string; Addr : string }.

Definition isWSP (r : ascii) : bool :=
  Ascii.eqb r " " || Ascii.eqb r (ascii_of_nat 9).

Definition isVchar (r : ascii) : bool := between "!" "~" r.

Definition backslash : ascii := ascii_of_nat 92.

Definition isQtext (r : ascii) : bool :=
  if Ascii.eqb r backslash || Ascii.eqb r (ascii_of_nat 34) then false
  else isVchar r.

Definition isAtext (r : ascii) (dot : bool) : bool :=
  if Ascii.eqb r "." then dot
  else if one_of ("()<>[]:;@," +:+ String backslash dquote) r then false
  else isVchar r.

Fixpoint skipSpace (s : string) : string :=
  match s with
  | String c s' => if isWSP c then skipSpace s' else s
  | EmptyString => s
  end.

(** [p.consume(c)]: the rest of the input when it starts with [c]. *)
Definition consume (c : ascii) (s : string) : option string :=
  match s with
  | String c' s' => if Ascii.eqb c' c then Some s' else None
  | EmptyString => None
  end.

Definition peek_is (c : ascii) (s : string) : bool :=
  match s with
  | String c' _ => Ascii.eqb c' c
  | EmptyString => false
  end.

Fixpoint atext_len (s : string) (dot : bool) : nat :=
  match s with
  | String r s' => if isAtext r dot then S (atext_len s' dot) else 0
  | EmptyString => 0
  end.

Definition consumeAtom (s : string) (dot permissive : bool) : result (string * string) :=
  let i := atext_len s dot in
  if (i =? 0)%nat then inl (errorString "mail: invalid string")
  else
    let atom := slice_to i s in
    if negb permissive && HasPrefix atom "."
    then inl (errorString "mail: leading dot in atom")
    else if negb permissive && Contains atom ".."
    then inl (errorString "mail: double dot in atom")
    else if negb permissive && HasSuffix atom "."
    then inl (errorString "mail: trailing dot in atom")
    else inr (atom, slice_from i s).

(** The loop of [consumeQuotedString], after the opening quote. *)
Fixpoint quoted_loop (s : string) (escaped : bool) (qsb : string)
  : result (string * string) :=
  match s with
  | EmptyString => inl (errorString "mail: unclosed quoted-string")
  | String r s' =>
      if escaped then
        if negb (isVchar r) && negb (isWSP r)
        then inl (errorfQ "mail: bad character in quoted-string: %q" (String r EmptyString))
        else quoted_loop s' false (qsb +:+ String r EmptyString)
      else if isQtext r || isWSP r
      then quoted_loop s' false (qsb +:+ String r EmptyString)
      else if Ascii.eqb r (ascii_of_nat 34) then inr (qsb, s')
      else if Ascii.eqb r backslash then quoted_loop s' true qsb
      else inl (errorfQ "mail: bad character in quoted-string: %q" (String r EmptyString))
  end.

Definition consumeQuotedString (s : string) : result (string * string) :=
  quoted_loop (slice_from 1 s) false EmptyString.

(** On an error the parser is put back where it was, which the caller
    does by keeping its own [s]. *)
Definition consumeAddrSpec (s : string) : result (string * string) :=
  let s := skipSpace s in
  if String.eqb s EmptyString then inl (errorString "mail: no addr-spec")
  else
    let? (localPart, s) :=
      if peek_is (ascii_of_nat 34) s then
        match consumeQuotedString s with
        | inr (localPart, s') =>
            if String.eqb localPart EmptyString
            then inl (errorString "mail: empty quoted string in addr-spec")
            else inr (localPart, s')
        | inl _ => inl (errorString "mail: empty quoted string in addr-spec")
        end
      else consumeAtom s true false in
    match consume "@" s with
    | None => inl (errorString "mail: missing @ in addr-spec")
    | Some s =>
        let s := skipSpace s in
        if String.eqb s EmptyString
        then inl (errorString "mail: no domain in addr-spec")
        else
          let? (domain, s) := consumeAtom s true false in
          inr (localPart +:+ "@" +:+ domain, s)
    end.

(** The loop of [consumePhrase]: [words] in reverse order. *)
Fixpoint phrase_loop (fuel : nat) (s : string) (words : list string)
  : list string * option error * string :=
  match fuel with
  | O => (words, None, s)
  | S fuel' =>
      let s := skipSpace s in
      if String.eqb s EmptyString then (words, None, s)
      else
        match (if peek_is (ascii_of_nat 34) s then consumeQuotedString s
               else consumeAtom s true true) with
        | inl err => (words, Some err, s)
        | inr (word, s') => phrase_loop fuel' s' (word :: words)
        end
  end.

Fixpoint Join (elems : list string) (sep : string) : string :=
  match elems with
  | [] => EmptyString
  | [w] => w
  | w :: ws => w +:+ sep +:+ Join ws sep
  end.

Definition consumePhrase (s : string) : result (string * string) :=
  match phrase_loop (S (String.length s)) s [] with
  | ([], Some err, _) => inl (errorfV "mail: missing word in phrase: %v" err)
  | (words, _, s') => inr (Join (rev words) " ", s')
  end.

Fixpoint all_atext (s : string) : bool :=
  match s with
  | EmptyString => true
  | String r s' => if isAtext r true then all_atext s' else false
  end.

Definition parseAddress (s : string) : result (Address * string) :=
  let s := skipSpace s in
  if String.eqb s EmptyString then inl (errorString "mail: no address")
  else
    match consumeAddrSpec s with
    | inr (spec, s') => inr (mkAddress EmptyString spec, skipSpace s')
    | inl _ =>
        let? (displayName, s) :=
          if negb (peek_is "<" s) then consumePhrase s else inr (EmptyString, s) in
        let s := skipSpace s in
        match consume "<" s with
        | None =>
            if all_atext displayName
            then inl (errorString "mail: missing '@' or angle-addr")
            else inl (errorString "mail: no angle-addr")
        | Some s =>
            let? (spec, s) := consumeAddrSpec s in
            match consume ">" s with
            | None => inl (errorString "mail: unclosed angle-addr")
            | Some s => inr (mkAddress displayName spec, s)
            end
        end
    end.

Definition parseSingleAddress (s : string) : result Address :=
  let? (addr, s) := parseAddress s in
  let s := skipSpace s in
  if negb (String.eqb s EmptyString)
  then inl (errorfQ "mail: expected single address, got %q" s)
  else inr addr.

(** The inputs covered: ASCII, with none of the bytes that open a
    comment, a group, a domain literal or an encoded word. *)
Fixpoint in_fragment (s : string) : bool :=
  match s with
  | EmptyString => true
  | String c s' =>
      if (128 <=? nat_of_ascii c)%nat || one_of "()[]:;,=" c then false
      else in_fragment s'
  end.

Definition ParseAddress (address : string) : result Address :=
  if in_fragment address then parseSingleAddress address
  else inl (errorString "mail: address outside the modelled fragment").

End netmail.

(** ** [helpers/mail/main.go] *)
Module mail.

(** RFC 3696: the domain part (after the "@") must not exceed 255
    characters, the local part (before the "@") must not exceed 64, and the
    whole address 320. *)
Definition maxEmailDomainLength : nat := 255.
Definition maxEmailLocalLength : nat := 64.
Definition maxEmailLength : nat := maxEmailDomainLength + maxEmailLocalLength + 1.

Section Mail.

(** The values of [interface{}]. *)
Variable any : Type.

(** [mail.ParseAddress] of the standard library. *)
Variable mail_ParseAddress : string -> result netmail.Address.

Record MailRecipient : Type := mkMailRecipient
  { Email : string;
    Name : string;
    FirstName : string;
    MiddleName : string;
    LastName : string;
    Attributes : gomap any;
    Lists : slice string;
    Tags : slice string;
    Gender : string;
    Age : Z;
    Address1 : string;
    Address2 : string;
    City : string;
    State : string;
    Country : string;
    PostalCode : string;
    Designation : string;
    Company : string;
    Industry : string;
    Description : string;
    AnniversaryDate : string }.

Record MailAttachment : Type := mkMailAttachment
  { Filename : string; ContentType : string; Data : string }.

Record MailAttachmentRemote : Type := mkMailAttachmentRemote
  { RemoteLink : string }.

Record MailSendRequest : Type := mkMailSendRequest
  { TransactionalID : string;
    To : slice (ptr MailRecipient);
    ReplyTo : string;
    CustomParameter : gomap any;
    Attachments : slice (ptr MailAttachment);
    AttachmentsRemote : slice (ptr MailAttachmentRemote);
    AddEmailAddressToContact : bool;
    ScheduledAt : string;
    AllowClickTracking : bool;
    AllowOpenTracking : bool;
    BypassBounceControl : bool;
    BypassUnsubscribeList : bool;
    EnableViewInBrowser : bool }.

(** NewMailSendRequest initializes an empty mail request *)
Definition NewMailSendRequest : ptr MailSendRequest :=
  Some (mkMailSendRequest
          EmptyString
          (slice_make [])          (* To: make([]*MailRecipient, 0) *)
          EmptyString
          (map_make ∅)             (* CustomParameter: make(map[string]interface{}) *)
          (slice_make [])          (* Attachments *)
          (slice_make [])          (* AttachmentsRemote *)
          false EmptyString false false false false false).

(** NewMailRecipient returns an empty recipient struct *)
Definition NewMailRecipient (name email : string) : ptr MailRecipient :=
  Some (mkMailRecipient
          email name EmptyString EmptyString EmptyString
          (map_make ∅) (slice_make []) (slice_make [])
          EmptyString 0%Z
          EmptyString EmptyString EmptyString EmptyString EmptyString
          EmptyString EmptyString EmptyString EmptyString EmptyString
          EmptyString).

(** ParseEmail parses a string that contains an rfc822 formatted email
    address.  [parts[1]] panics when [Split] gives a single part. *)
Definition ParseEmail (emailInfo : string)
  : outcome (ptr MailRecipient * option error) :=
  match mail_ParseAddress emailInfo with
  | inl err => Returned (None, Some err)
  | inr e =>
      if (maxEmailLength <? String.length (netmail.Addr e))%nat
      then Returned (None, Some (Errorf_d
             "Invalid email length. Total length should not exceed %d characters."
             maxEmailLength))
      else
        let parts := strings.Split (netmail.Addr e) "@" in
        match parts !! 0%nat, parts !! 1%nat with
        | Some local, Some domain =>
            if (maxEmailDomainLength <? String.length domain)%nat
            then Returned (None, Some (Errorf_d
                   "Invalid email length. Domain length should not exceed %d characters."
                   maxEmailDomainLength))
            else if (maxEmailLocalLength <? String.length local)%nat
            then Returned (None, Some (Errorf_d
                   "Invalid email length. Local part length should not exceed %d characters."
                   maxEmailLocalLength))
            else Returned (NewMailRecipient (netmail.Name e) (netmail.Addr e), None)
        | _, _ => Panicked "runtime error: index out of range"
        end
  end.

(** The builder methods have a pointer receiver and return it: they take
    the request the receiver points to and give the request it points to
    afterwards. *)

(** AddRecipient appends one or more recipients to the request *)
Definition AddRecipient (m : MailSendRequest) (recipients : list (ptr MailRecipient))
  : MailSendRequest :=
  mkMailSendRequest
    (TransactionalID m) (append_slice (To m) recipients) (ReplyTo m)
    (CustomParameter m) (Attachments m) (AttachmentsRemote m)
    (AddEmailAddressToContact m) (ScheduledAt m) (AllowClickTracking m)
    (AllowOpenTracking m) (BypassBounceControl m) (BypassUnsubscribeList m)
    (EnableViewInBrowser m).

(** AddAttachment appends one or more file attachments *)
Definition AddAttachment (m : MailSendRequest) (att : list (ptr MailAttachment))
  : MailSendRequest :=
  mkMailSendRequest
    (TransactionalID m) (To m) (ReplyTo m)
    (CustomParameter m) (append_slice (Attachments m) att) (AttachmentsRemote m)
    (AddEmailAddressToContact m) (ScheduledAt m) (AllowClickTracking m)
    (AllowOpenTracking m) (BypassBounceControl m) (BypassUnsubscribeList m)
    (EnableViewInBrowser m).

(** AddRemoteAttachment appends one or more remote attachments *)
Definition AddRemoteAttachment (m : MailSendRequest)
    (rem : list (ptr MailAttachmentRemote)) : MailSendRequest :=
  mkMailSendRequest
    (TransactionalID m) (To m) (ReplyTo m)
    (CustomParameter m) (Attachments m) (append_slice (AttachmentsRemote m) rem)
    (AddEmailAddressToContact m) (ScheduledAt m) (AllowClickTracking m)
    (AllowOpenTracking m) (BypassBounceControl m) (BypassUnsubscribeList m)
    (EnableViewInBrowser m).

(** SetReplyTo sets the Reply-To email address *)
Definition SetReplyTo (m : MailSendRequest) (replyTo : string) : MailSendRequest :=
  mkMailSendRequest
    (TransactionalID m) (To m) replyTo
    (CustomParameter m) (Attachments m) (AttachmentsRemote m)
    (AddEmailAddressToContact m) (ScheduledAt m) (AllowClickTracking m)
    (AllowOpenTracking m) (BypassBounceControl m) (BypassUnsubscribeList m)
    (EnableViewInBrowser m).

(** SetCustomParameter adds a custom parameter key/value *)
Definition SetCustomParameter (m : MailSendRequest) (key : string) (value : any)
  : outcome MailSendRequest :=
  match map_assign (CustomParameter m) key value with
  | Panicked msg => Panicked msg
  | Returned params =>
      Returned
        (mkMailSendRequest
           (TransactionalID m) (To m) (ReplyTo m)
           params (Attachments m) (AttachmentsRemote m)
           (AddEmailAddressToContact m) (ScheduledAt m) (AllowClickTracking m)
           (AllowOpenTracking m) (BypassBounceControl m) (BypassUnsubscribeList m)
           (EnableViewInBrowser m))
  end.

(** SetScheduledAt sets scheduled sending time (RFC3339 format string) *)
Definition SetScheduledAt (m : MailSendRequest) (scheduledAt : string)
  : MailSendRequest :=
  mkMailSendRequest
    (TransactionalID m) (To m) (ReplyTo m)
    (CustomParameter m) (Attachments m) (AttachmentsRemote m)
    (AddEmailAddressToContact m) scheduledAt (AllowClickTracking m)
    (AllowOpenTracking m) (BypassBounceControl m) (BypassUnsubscribeList m)
    (EnableViewInBrowser m).

Definition SetAllowClickTracking (m : MailSendRequest) (enable : bool)
  : MailSendRequest :=
  mkMailSendRequest
    (TransactionalID m) (To m) (ReplyTo m)
    (CustomParameter m) (Attachments m) (AttachmentsRemote m)
    (AddEmailAddressToContact m) (ScheduledAt m) enable
    (AllowOpenTracking m) (BypassBounceControl m) (BypassUnsubscribeList m)
    (EnableViewInBrowser m).

Definition SetAllowOpenTracking (m : MailSendRequest) (enable : bool)
  : MailSendRequest :=
  mkMailSendRequest
    (TransactionalID m) (To m) (ReplyTo m)
    (CustomParameter m) (Attachments m) (AttachmentsRemote m)
    (AddEmailAddressToContact m) (ScheduledAt m) (AllowClickTracking m)
    enable (BypassBounceControl m) (BypassUnsubscribeList m)
    (EnableViewInBrowser m).

Definition SetBypassBounceControl (m : MailSendRequest) (enable : bool)
  : MailSendRequest :=
  mkMailSendRequest
    (TransactionalID m) (To m) (ReplyTo m)
    (CustomParameter m) (Attachments m) (AttachmentsRemote m)
    (AddEmailAddressToContact m) (ScheduledAt m) (AllowClickTracking m)
    (AllowOpenTracking m) enable (BypassUnsubscribeList m)
    (EnableViewInBrowser m).

Definition SetBypassUnsubscribeList (m : MailSendRequest) (enable : bool)
  : MailSendRequest :=
  mkMailSendRequest
    (TransactionalID m) (To m) (ReplyTo m)
    (CustomParameter m) (Attachments m) (AttachmentsRemote m)
    (AddEmailAddressToContact m) (ScheduledAt m) (AllowClickTracking m)
    (AllowOpenTracking m) (BypassBounceControl m) enable
    (EnableViewInBrowser m).

Definition SetEnableViewInBrowser (m : MailSendRequest) (enable : bool)
  : MailSendRequest :=
  mkMailSendRequest
    (TransactionalID m) (To m) (ReplyTo m)
    (CustomParameter m) (Attachments m) (AttachmentsRemote m)
    (AddEmailAddressToContact m) (ScheduledAt m) (AllowClickTracking m)
    (AllowOpenTracking m) (BypassBounceControl m) (BypassUnsubscribeList m)
    enable.

(** NewMailAttachment returns an empty attachment *)
Definition NewMailAttachment (filename contentType data : string) : ptr MailAttachment :=
  Some (mkMailAttachment filename contentType data).

(** NewMailAttachmentRemote returns an empty remote attachment *)
Definition NewMailAttachmentRemote (remoteLink : string) : ptr MailAttachmentRemote :=
  Some (mkMailAttachmentRemote remoteLink).

End Mail.

Arguments Email {any}.
Arguments Name {any}.
Arguments To {any}.
Arguments CustomParameter {any}.
Arguments Attachments {any}.
Arguments AttachmentsRemote {any}.
Arguments ReplyTo {any}.
Arguments ScheduledAt {any}.
Arguments Attributes {any}.
Arguments Lists {any}.
Arguments Tags {any}.
Arguments AddRecipient {any}.
Arguments AddAttachment {any}.
Arguments AddRemoteAttachment {any}.
Arguments SetReplyTo {any}.
Arguments SetCustomParameter {any}.
Arguments SetScheduledAt {any}.

End mail.

(** ** Notions used to state the properties *)

(** The local and the domain part of an address as the specification has
    them: the substrings before and after the last "@". *)
Definition spec_parts (address : string) : option (string * string) :=
  match strings.LastIndex address "@" with
  | Some i => Some (slice_to i address, slice_from (S i) address)
  | None => None
  end.

(** A message names an identifier when the identifier occurs in it. *)
Definition names (msg ident : string) : Prop := strings.Contains msg ident = true.

(** Joining [host] and [path] creates no double slash: every "//" of
    [host ++ path] lies inside [host] or inside [path]. *)
Definition junction_clean (host path : string) : Prop :=
  forall i : nat,
    slice_to 2 (slice_from i (host +:+ path)) = "//" ->
    i + 2 <= String.length host \/ String.length host <= i.

(** Bytes that [url.Parse] reads back as themselves inside a path: no
    escape sign, no query or fragment mark, no control byte. *)
Fixpoint plain_bytes (p : string) : bool :=
  match p with
  | EmptyString => true
  | String c p' =>
      negb (one_of "%?#" c)
      && negb ((nat_of_ascii c <? nat_of_ascii " ")%nat || Ascii.eqb c (ascii_of_nat 127))
      && plain_bytes p'
  end.

(** A path that is empty or begins with "/" and holds plain bytes only. *)
Definition plain_path (p : string) : bool :=
  (String.eqb p EmptyString || strings.HasPrefix p "/") && plain_bytes p.

(** [n] copies of the byte [c]. *)
Fixpoint repeat_byte (c : ascii) (n : nat) : string :=
  match n with
  | O => EmptyString
  | S k => String c (repeat_byte c k)
  end.

(** A request descriptor with method, header and body set, for closed
    examples. *)
Definition send_request (baseURL : string) : rest.Request :=
  rest.mkRequest "POST" baseURL {[ "Authorization" := "Bearer abc123" ]} [].

(** What the specification asks of the Request Builder on the options [o]:
    no request at all when the key is empty, else a request whose
    authorization header is "Bearer " followed by the key. *)
Definition builder_as_specified (onBehalfOfHeader : string)
    (o : cocoonmail.CocoonmailOptions) : Prop :=
  if String.eqb (cocoonmail.Key o) EmptyString
  then forall r : rest.Request, cocoonmail.createCocoonmailRequest onBehalfOfHeader o <> r
  else rest.Headers (cocoonmail.createCocoonmailRequest onBehalfOfHeader o) !! "Authorization"
       = Some ("Bearer " +:+ cocoonmail.Key o).

(** The three length errors of [ParseEmail], as rendered. *)
Definition total_error : error :=
  errorString "Invalid email length. Total length should not exceed 320 characters.".
Definition domain_error : error :=
  errorString "Invalid email length. Domain length should not exceed 255 characters.".
Definition local_error : error :=
  errorString "Invalid email length. Local part length should not exceed 64 characters.".

(** [s] between double quotes. *)
Definition quoted (s : string) : string := dquote +:+ s +:+ dquote.

(** The query and the fragment a URL may end with. *)
Definition query_part (q : option string) : string :=
  match q with
  | Some q' => "?" +:+ q'
  | None => EmptyString
  end.

Definition fragment_part (f : option string) : string :=
  match f with
  | Some f' => "#" +:+ f'
  | None => EmptyString
  end.

(** A call of one of the builder methods that cannot panic, with its
    arguments, and the field of the request it writes. *)
Inductive builder_call (any : Type) : Type :=
| call_AddRecipient (recipients : list (ptr (mail.MailRecipient any)))
| call_AddAttachment (att : list (ptr mail.MailAttachment))
| call_AddRemoteAttachment (rem : list (ptr mail.MailAttachmentRemote))
| call_SetReplyTo (replyTo : string)
| call_SetScheduledAt (scheduledAt : string)
| call_SetAllowClickTracking (enable : bool)
| call_SetAllowOpenTracking (enable : bool)
| call_SetBypassBounceControl (enable : bool)
| call_SetBypassUnsubscribeList (enable : bool)
| call_SetEnableViewInBrowser (enable : bool).
Arguments call_AddRecipient {any} recipients.
Arguments call_AddAttachment {any} att.
Arguments call_AddRemoteAttachment {any} rem.
Arguments call_SetReplyTo {any} replyTo.
Arguments call_SetScheduledAt {any} scheduledAt.
Arguments call_SetAllowClickTracking {any} enable.
Arguments call_SetAllowOpenTracking {any} enable.
Arguments call_SetBypassBounceControl {any} enable.
Arguments call_SetBypassUnsubscribeList {any} enable.
Arguments call_SetEnableViewInBrowser {any} enable.

Definition run_call {any : Type} (c : builder_call any) (m : mail.MailSendRequest any)
  : mail.MailSendRequest any :=
  match c with
  | call_AddRecipient recipients => mail.AddRecipient m recipients
  | call_AddAttachment att => mail.AddAttachment m att
  | call_AddRemoteAttachment rem => mail.AddRemoteAttachment m rem
  | call_SetReplyTo replyTo => mail.SetReplyTo m replyTo
  | call_SetScheduledAt scheduledAt => mail.SetScheduledAt m scheduledAt
  | call_SetAllowClickTracking enable => mail.SetAllowClickTracking any m enable
  | call_SetAllowOpenTracking enable => mail.SetAllowOpenTracking any m enable
  | call_SetBypassBounceControl enable => mail.SetBypassBounceControl any m enable
  | call_SetBypassUnsubscribeList enable => mail.SetBypassUnsubscribeList any m enable
  | call_SetEnableViewInBrowser enable => mail.SetEnableViewInBrowser any m enable
  end.

(** The field a call writes, numbered in the order of the struct; the
    [Add] methods append to it, the [Set] methods replace it. *)
Definition written_field {any : Type} (c : builder_call any) : nat :=
  match c with
  | call_AddRecipient _ => 2
  | call_SetReplyTo _ => 3
  | call_AddAttachment _ => 5
  | call_AddRemoteAttachment _ => 6
  | call_SetScheduledAt _ => 8
  | call_SetAllowClickTracking _ => 9
  | call_SetAllowOpenTracking _ => 10
  | call_SetBypassBounceControl _ => 11
  | call_SetBypassUnsubscribeList _ => 12
  | call_SetEnableViewInBrowser _ => 13
  end.

Definition is_setter {any : Type} (c : builder_call any) : bool :=
  match c with
  | call_AddRecipient _ | call_AddAttachment _ | call_AddRemoteAttachment _ => false
  | _ => true
  end.

(** The result of [ParseEmail] is a recipient or an error, not both and
    not neither. *)
Definition one_of_two {A : Type} (res : ptr A * option error) : Prop :=
  match res with
  | (Some _, None) | (None, Some _) => True
  | _ => False
  end.

(** * Properties *)

(** ** Strings *)

#[local] Arguments String.append !_ _ : simpl nomatch.

Lemma append_nil_r (s : string) : s +:+ EmptyString = s.
Proof. induction s as [|c s IH]; simpl; [reflexivity | now rewrite IH]. Qed.

Lemma append_assoc (a b c : string) : (a +:+ b) +:+ c = a +:+ (b +:+ c).
Proof. induction a as [|x a IH]; simpl; [reflexivity | now rewrite IH]. Qed.

Lemma length_append (a b : string) :
  String.length (a +:+ b) = String.length a + String.length b.
Proof. induction a as [|x a IH]; simpl; [reflexivity | now rewrite IH]. Qed.

Lemma slice_to_append (a b : string) : slice_to (String.length a) (a +:+ b) = a.
Proof. induction a as [|x a IH]; simpl; [now destruct b | now rewrite IH]. Qed.

Lemma slice_from_append (a b : string) : slice_from (String.length a) (a +:+ b) = b.
Proof. induction a as [|x a IH]; simpl; [now destruct b | exact IH]. Qed.

Lemma one_of_append (a b : string) (c : ascii) :
  one_of (a +:+ b) c = one_of a c || one_of b c.
Proof.
  induction a as [|x a IH]; simpl; [reflexivity|].
  rewrite IH. now rewrite orb_assoc.
Qed.

Lemma HasPrefix_byte (c x : ascii) (s : string) :
  strings.HasPrefix (String x s) (String c EmptyString) = Ascii.eqb x c.
Proof. cbn [strings.HasPrefix]. destruct s; apply andb_true_r. Qed.

Lemma Index_absent (s : string) (c : ascii) :
  one_of s c = false -> strings.Index s (String c EmptyString) = None.
Proof.
  induction s as [|x s IH]; intros H; [reflexivity|].
  cbn [one_of] in H. apply orb_false_iff in H as [Hx Hs].
  cbn [strings.Index]. rewrite HasPrefix_byte, Ascii.eqb_sym, Hx, (IH Hs).
  reflexivity.
Qed.

Lemma Index_first (a q : string) (c : ascii) :
  one_of a c = false ->
  strings.Index (a +:+ String c q) (String c EmptyString) = Some (String.length a).
Proof.
  induction a as [|x a IH]; intros H.
  - cbn [append strings.Index]. now rewrite HasPrefix_byte, Ascii.eqb_refl.
  - cbn [one_of] in H. apply orb_false_iff in H as [Hx Ha].
    cbn [append strings.Index]. rewrite HasPrefix_byte, Ascii.eqb_sym, Hx, (IH Ha).
    reflexivity.
Qed.

Lemma Count_absent (s : string) (c : ascii) :
  one_of s c = false -> strings.Count s (String c EmptyString) = 0.
Proof.
  unfold strings.Count.
  induction s as [|x s IH]; intros H; [reflexivity|].
  cbn [one_of] in H. apply orb_false_iff in H as [Hx Hs].
  cbn [strings.count_from]. rewrite HasPrefix_byte, Ascii.eqb_sym, Hx. auto.
Qed.

Lemma Cut_absent (s : string) (c : ascii) :
  one_of s c = false ->
  strings.Cut s (String c EmptyString) = (s, EmptyString, false).
Proof. intros H. unfold strings.Cut. now rewrite Index_absent. Qed.

(** ** [url.Parse] on a regional host followed by a plain path *)

Lemma plain_bytes_inv (c : ascii) (p : string) :
  plain_bytes (String c p) = true ->
  Ascii.eqb c "%" = false /\ Ascii.eqb c "?" = false /\ Ascii.eqb c "#" = false
  /\ ((nat_of_ascii c <? nat_of_ascii " ")%nat || Ascii.eqb c (ascii_of_nat 127)) = false
  /\ plain_bytes p = true.
Proof.
  cbn [plain_bytes one_of]. rewrite !andb_true_iff, !negb_true_iff, !orb_false_iff.
  intuition.
Qed.

Lemma plain_bytes_absent (p : string) :
  plain_bytes p = true ->
  one_of p "%" = false /\ one_of p "?" = false /\ one_of p "#" = false.
Proof.
  induction p as [|c p IH]; intros H; [now cbn|].
  apply plain_bytes_inv in H as (H1 & H2 & H3 & _ & Hp).
  destruct (IH Hp) as (I1 & I2 & I3).
  cbn [one_of]. rewrite I1, I2, I3.
  rewrite (Ascii.eqb_sym "%" c), (Ascii.eqb_sym "?" c), (Ascii.eqb_sym "#" c).
  now rewrite H1, H2, H3.
Qed.

Lemma plain_bytes_no_CTL (p : string) :
  plain_bytes p = true -> url.stringContainsCTLByte p = false.
Proof.
  induction p as [|c p IH]; intros H; [reflexivity|].
  apply plain_bytes_inv in H as (_ & _ & _ & H4 & Hp).
  cbn [url.stringContainsCTLByte]. now rewrite H4, (IH Hp).
Qed.

Lemma stringContainsCTLByte_append (a b : string) :
  url.stringContainsCTLByte (a +:+ b)
  = url.stringContainsCTLByte a || url.stringContainsCTLByte b.
Proof.
  induction a as [|x a IH]; [reflexivity|].
  cbn [String.append url.stringContainsCTLByte]. rewrite IH.
  now destruct ((nat_of_ascii x <? nat_of_ascii " ")%nat || Ascii.eqb x (ascii_of_nat 127)).
Qed.

(** Without an escape sign the first loop of [unescape] finds nothing to
    decode in a path. *)
Lemma unescape_check_plain (p : string) (n : nat) :
  one_of p "%" = false ->
  url.unescape_check p url.encodePath n false = inr (n, false).
Proof.
  induction p as [|c p IH]; intros H; [reflexivity|].
  cbn [one_of] in H. apply orb_false_iff in H as [Hc Hp].
  rewrite Ascii.eqb_sym in Hc.
  cbn [url.unescape_check]. rewrite Hc.
  cbn [url.is_mode orb andb]. rewrite (IH Hp).
  now destruct (Ascii.eqb c "+").
Qed.

Lemma unescape_plain (p : string) :
  one_of p "%" = false -> url.unescape p url.encodePath = inr p.
Proof.
  intros H. unfold url.unescape. now rewrite unescape_check_plain.
Qed.

Lemma getScheme_https (rest : string) :
  url.getScheme ("https:" +:+ rest) = inr ("https", rest).
Proof. reflexivity. Qed.

(** The parse of [https://name] followed by a plain path gives that path
    back, whatever host name the authority parser accepts. *)
Lemma Parse_https (name p : string) (user : option url.Userinfo) (host : string) :
  one_of name "/" = false -> one_of name "?" = false -> one_of name "#" = false ->
  url.stringContainsCTLByte name = false ->
  url.parseAuthority name = inr (user, host) ->
  plain_path p = true ->
  url.Parse ("https://" +:+ name +:+ p)
  = inr (url.mkURL "https" EmptyString user host p false EmptyString EmptyString).
Proof.
  intros Hslash Hq Hf Hctl Hauth Hp.
  apply andb_true_iff in Hp as [Hhead Hplain].
  destruct (plain_bytes_absent p Hplain) as (Pe & Pq & Pf).
  pose proof (plain_bytes_no_CTL p Hplain) as Pctl.
  unfold url.Parse.
  rewrite Cut_absent by (cbn [String.append one_of]; rewrite one_of_append, Hf, Pf; reflexivity).
  assert (Hparse : url.parse ("https://" +:+ name +:+ p) false
          = inr (url.mkURL "https" EmptyString user host p false EmptyString EmptyString)).
  { unfold url.parse.
    assert (url.stringContainsCTLByte ("https://" +:+ name +:+ p) = false) as ->.
    { rewrite !stringContainsCTLByte_append, Hctl, Pctl. reflexivity. }
    change ("https://" +:+ name +:+ p) with ("https:" +:+ ("//" +:+ name +:+ p)).
    rewrite getScheme_https.
    set (rest := "//" +:+ name +:+ p).
    cbn [String.append String.eqb Ascii.eqb Bool.eqb andb bind].
    assert (one_of rest "?" = false) as Hq'.
    { subst rest. cbn [String.append one_of]. rewrite one_of_append, Hq, Pq. reflexivity. }
    rewrite (Count_absent _ _ Hq'), andb_false_r, (Cut_absent _ _ Hq').
    change (strings.ToLower "https") with "https".
    subst rest.
    cbn [String.append strings.HasPrefix String.eqb Ascii.eqb Bool.eqb
         andb orb negb slice_from].
    destruct p as [|c q].
    - rewrite append_nil_r, (Index_absent _ _ Hslash), Hauth. reflexivity.
    - cbn [String.eqb orb strings.HasPrefix] in Hhead.
      apply andb_true_iff in Hhead as [Hc _]. apply Ascii.eqb_eq in Hc. subst c.
      rewrite (Index_first _ _ _ Hslash), slice_to_append, slice_from_append, Hauth.
      cbn [bind]. unfold url.setPath. cbn [url.Scheme url.Opaque url.User url.Host
        url.ForceQuery url.RawQuery url.Fragment].
      rewrite (unescape_plain _ Pe). reflexivity. }
  rewrite Hparse. reflexivity.
Qed.

(** ** The region table *)

Import rest cocoonmail.

Lemma region_eu :
  allowedRegionsHostMap !! "eu" = Some "https://api.eu.cocoonmail.com".
Proof. unfold allowedRegionsHostMap. apply lookup_insert_eq. Qed.

Lemma region_global :
  allowedRegionsHostMap !! "global" = Some "https://webhook.cocoonmail.com".
Proof.
  unfold allowedRegionsHostMap.
  rewrite lookup_insert_ne by discriminate. apply lookup_insert_eq.
Qed.

Lemma region_other (region : string) :
  region <> "eu" -> region <> "global" -> allowedRegionsHostMap !! region = None.
Proof.
  intros He Hg. unfold allowedRegionsHostMap.
  rewrite !lookup_insert_ne by congruence. apply lookup_empty.
Qed.

(** Every host of the table is [https://] and a name the URL parser reads
    as a host, and none ends in a slash. *)
Lemma region_hosts (region host : string) :
  allowedRegionsHostMap !! region = Some host ->
  host = "https://api.eu.cocoonmail.com" \/ host = "https://webhook.cocoonmail.com".
Proof.
  intros H.
  destruct (decide (region = "eu")) as [->|He].
  { rewrite region_eu in H. left. congruence. }
  destruct (decide (region = "global")) as [->|Hg].
  { rewrite region_global in H. right. congruence. }
  rewrite region_other in H by assumption. discriminate.
Qed.

Lemma Parse_regional (region host p : string) :
  allowedRegionsHostMap !! region = Some host ->
  plain_path p = true ->
  exists u, url.Parse (host +:+ p) = inr u /\ url.Path u = p.
Proof.
  intros H Hp. destruct (region_hosts _ _ H) as [-> | ->].
  - eexists. split.
    + apply (Parse_https "api.eu.cocoonmail.com" p None "api.eu.cocoonmail.com");
        solve [reflexivity | exact Hp].
    + reflexivity.
  - eexists. split.
    + apply (Parse_https "webhook.cocoonmail.com" p None "webhook.cocoonmail.com");
        solve [reflexivity | exact Hp].
    + reflexivity.
Qed.

(** ** Joining a host and a path *)

Lemma HasSuffix_cons (x y : ascii) (h : string) :
  strings.HasSuffix (String x (String y h)) "/" = strings.HasSuffix (String y h) "/".
Proof.
  unfold strings.HasSuffix. cbn [String.length].
  replace (S (S (String.length h)) - 1) with (S (S (String.length h) - 1)) by lia.
  reflexivity.
Qed.

Lemma junction_no_slash (host path : string) :
  strings.HasSuffix host "/" = false -> junction_clean host path.
Proof.
  unfold junction_clean. induction host as [|x h IH]; intros Hs i Hi.
  { right. cbn. lia. }
  destruct h as [|y h'].
  - destruct i as [|j]; [|right; cbn; lia].
    exfalso. cbn in Hi. destruct path as [|c q]; [discriminate|].
    injection Hi as -> _. discriminate Hs.
  - destruct i as [|j]; [left; cbn; lia|].
    rewrite HasSuffix_cons in Hs.
    destruct (IH Hs j) as [Hl | Hr]; [exact Hi | left | right];
      cbn [String.length] in *; lia.
Qed.

(** ** [SetDataResidency] *)

Lemma SetDataResidency_unknown (r : Request) (region : string) :
  allowedRegionsHostMap !! region = None ->
  SetDataResidency r region = (r, Some (errorString region_error_text)).
Proof. intros H. unfold SetDataResidency. now rewrite H. Qed.

Lemma SetDataResidency_parsed (r : Request) (region host : string) (u : url.URL) :
  allowedRegionsHostMap !! region = Some host ->
  url.Parse (BaseURL r) = inr u ->
  SetDataResidency r region
  = (mkRequest (Method r) (host +:+ url.Path u) (Headers r) (Body r), None).
Proof.
  intros H Hu. unfold SetDataResidency, extractEndpoint. now rewrite H, Hu.
Qed.

Lemma SetDataResidency_unparsed (r : Request) (region host : string) (err : error) :
  allowedRegionsHostMap !! region = Some host ->
  url.Parse (BaseURL r) = inl err ->
  SetDataResidency r region = (r, Some err).
Proof.
  intros H Hu. unfold SetDataResidency, extractEndpoint. now rewrite H, Hu.
Qed.

(** C2, as amended: for a region other than "eu" and "global",
    [SetDataResidency] returns the input descriptor unmodified together with
    an error whose text is the constant [error: region can only be "eu" or
    "global"]: the text names the two allowed identifiers, and the error is
    the same for every descriptor and every such region, whatever identifier
    was requested. *)
Theorem C2_unknown_region_fixed_error (r : Request) (region : string) :
  region <> "eu" -> region <> "global" ->
  SetDataResidency r region = (r, Some (errorString region_error_text))
  /\ names region_error_text "eu" /\ names region_error_text "global"
  /\ (forall (r' : Request) (other : string),
        other <> "eu" -> other <> "global" ->
        snd (SetDataResidency r' other) = snd (SetDataResidency r region)).
Proof.
  intros He Hg.
  assert (H : forall (q : Request) (x : string), x <> "eu" -> x <> "global" ->
              SetDataResidency q x = (q, Some (errorString region_error_text))).
  { intros q x Hx1 Hx2. apply SetDataResidency_unknown, region_other; assumption. }
  split; [exact (H r region He Hg)|]. split; [reflexivity|]. split; [reflexivity|].
  intros r' other Ho1 Ho2. now rewrite (H r' other Ho1 Ho2), (H r region He Hg).
Qed.

Lemma C2_unknown_region_fixed_error_witness :
  SetDataResidency (send_request "https://webhook.cocoonmail.com/webhook/mail/send") "us"
  = (send_request "https://webhook.cocoonmail.com/webhook/mail/send",
     Some (errorString region_error_text))
  /\ names region_error_text "eu" /\ names region_error_text "global"
  /\ snd (SetDataResidency (send_request "https://api.eu.cocoonmail.com/v1/contacts") "asia")
     = snd (SetDataResidency
              (send_request "https://webhook.cocoonmail.com/webhook/mail/send") "us").
Proof.
  assert (H1 : "us" <> "eu") by discriminate.
  assert (H2 : "us" <> "global") by discriminate.
  destruct (C2_unknown_region_fixed_error
              (send_request "https://webhook.cocoonmail.com/webhook/mail/send") "us" H1 H2)
    as (Hres & Heu & Hglobal & Hsame).
  split; [exact Hres|]. split; [exact Heu|]. split; [exact Hglobal|].
  apply Hsame; discriminate.
Defined.

(** C2 as stated fails: the error returned for the region "us" does not
    name "us". *)
Lemma C2_error_does_not_name_region :
  ~ (exists msg : string,
        SetDataResidency (send_request "https://webhook.cocoonmail.com/webhook/mail/send") "us"
        = (send_request "https://webhook.cocoonmail.com/webhook/mail/send",
           Some (errorString msg))
        /\ names msg "us" /\ names msg "eu" /\ names msg "global").
Proof.
  intros (msg & H & Hus & _).
  rewrite SetDataResidency_unknown in H by (apply region_other; discriminate).
  injection H as <-. unfold names in Hus. vm_compute in Hus. discriminate.
Qed.

(** C7: when the base URL parses and the region is one of "eu" and "global",
    [SetDataResidency] succeeds, the new base URL is the region's host
    followed by the path of the parsed URL and by nothing else of it, and the
    junction creates no double slash; with region "eu" the base URL
    [https://webhook.cocoonmail.com/webhook/mail/send] becomes
    [https://api.eu.cocoonmail.com/webhook/mail/send]. *)
Theorem C7_region_host_then_path :
  (forall (r : Request) (region : string) (u : url.URL),
      region = "eu" \/ region = "global" ->
      url.Parse (BaseURL r) = inr u ->
      exists host : string,
        allowedRegionsHostMap !! region = Some host
        /\ SetDataResidency r region
           = (mkRequest (Method r) (host +:+ url.Path u) (Headers r) (Body r), None)
        /\ junction_clean host (url.Path u))
  /\ (forall (method : string) (headers : gmap string string) (body : list ascii),
        SetDataResidency
          (mkRequest method "https://webhook.cocoonmail.com/webhook/mail/send" headers body)
          "eu"
        = (mkRequest method "https://api.eu.cocoonmail.com/webhook/mail/send" headers body,
           None)).
Proof.
  split.
  - intros r region u Hregion Hu.
    destruct Hregion as [-> | ->]; eexists; (split; [|split]).
    + apply region_eu.
    + apply SetDataResidency_parsed; [apply region_eu | exact Hu].
    + apply junction_no_slash. reflexivity.
    + apply region_global.
    + apply SetDataResidency_parsed; [apply region_global | exact Hu].
    + apply junction_no_slash. reflexivity.
  - intros method headers body.
    erewrite SetDataResidency_parsed; [| apply region_eu | vm_compute; reflexivity].
    reflexivity.
Qed.

Lemma C7_region_host_then_path_witness :
  exists host : string,
    allowedRegionsHostMap !! "global" = Some host
    /\ SetDataResidency (send_request "https://api.eu.cocoonmail.com/v1/contacts?page=2#top") "global"
       = (mkRequest "POST" (host +:+ "/v1/contacts")
                    {[ "Authorization" := "Bearer abc123" ]} [], None)
    /\ junction_clean host "/v1/contacts".
Proof.
  apply (proj1 C7_region_host_then_path
           (send_request "https://api.eu.cocoonmail.com/v1/contacts?page=2#top") "global"
           (url.mkURL "https" EmptyString None "api.eu.cocoonmail.com" "/v1/contacts"
                      false "page=2" "top")).
  - right. reflexivity.
  - vm_compute. reflexivity.
Defined.

(** For a region of the table, a second [SetDataResidency] with the same
    region returns what the first returned whenever the first failed, or
    succeeded with an extracted path that is empty or begins with "/" and
    holds no "%", "?", "#" and no control byte. *)
Theorem SetDataResidency_idempotent_on_plain_paths (r : Request) (region : string) :
  region = "eu" \/ region = "global" ->
  match url.Parse (BaseURL r) with
  | inr u => plain_path (url.Path u) = true
  | inl _ => True
  end ->
  SetDataResidency (fst (SetDataResidency r region)) region = SetDataResidency r region.
Proof.
  intros Hregion Hpath.
  assert (exists host, allowedRegionsHostMap !! region = Some host) as [host Hhost].
  { destruct Hregion as [-> | ->]; eexists; [apply region_eu | apply region_global]. }
  destruct (url.Parse (BaseURL r)) as [err | u] eqn:Hu.
  - rewrite (SetDataResidency_unparsed r region host err Hhost Hu). cbn [fst].
    apply (SetDataResidency_unparsed r region host err Hhost Hu).
  - rewrite (SetDataResidency_parsed r region host u Hhost Hu). cbn [fst].
    destruct (Parse_regional region host (url.Path u) Hhost Hpath) as (u' & Hu' & Hp').
    rewrite (SetDataResidency_parsed
               (mkRequest (Method r) (host +:+ url.Path u) (Headers r) (Body r))
               region host u' Hhost Hu').
    cbn [Method Headers Body].
    now rewrite Hp'.
Qed.

Lemma SetDataResidency_idempotent_on_plain_paths_witness :
  SetDataResidency
    (fst (SetDataResidency (send_request "https://webhook.cocoonmail.com/webhook/mail/send") "eu"))
    "eu"
  = SetDataResidency (send_request "https://webhook.cocoonmail.com/webhook/mail/send") "eu".
Proof.
  apply (SetDataResidency_idempotent_on_plain_paths
           (send_request "https://webhook.cocoonmail.com/webhook/mail/send") "eu").
  - left. reflexivity.
  - vm_compute. reflexivity.
Defined.

(** C8, at inputs that show the defect: [extractEndpoint] hands back the
    decoded path and [SetDataResidency] writes it into the base URL as it
    is.  An escaped "?" is decoded by the first application and read as the
    start of a query by the second, which returns another descriptor; an
    escaped "%" is decoded by the first application into a base URL that the
    second cannot parse. *)
Theorem C8_escaped_path_not_idempotent :
  let once := fst (SetDataResidency (send_request "https://webhook.cocoonmail.com/a%3Fb") "eu") in
  let twice := fst (SetDataResidency once "eu") in
  let once' :=
    fst (SetDataResidency (send_request "https://webhook.cocoonmail.com/files/100%25") "eu") in
  (BaseURL once = "https://api.eu.cocoonmail.com/a?b"
   /\ BaseURL twice = "https://api.eu.cocoonmail.com/a"
   /\ twice <> once)
  /\ (BaseURL once' = "https://api.eu.cocoonmail.com/files/100%"
      /\ SetDataResidency once' "eu"
         = (once', Some (UrlError "parse" "https://api.eu.cocoonmail.com/files/100%"
                           (EscapeError "%")))
      /\ SetDataResidency
           (send_request "https://webhook.cocoonmail.com/files/100%25") "eu"
         = (once', None)).
Proof.
  cbn zeta. split.
  - erewrite (SetDataResidency_parsed (send_request "https://webhook.cocoonmail.com/a%3Fb"));
      [| apply region_eu | vm_compute; reflexivity].
    cbn [fst].
    erewrite SetDataResidency_parsed; [| apply region_eu | vm_compute; reflexivity].
    cbn [fst BaseURL url.Path]. repeat split. discriminate.
  - erewrite (SetDataResidency_parsed
                (send_request "https://webhook.cocoonmail.com/files/100%25"));
      [| apply region_eu | vm_compute; reflexivity].
    cbn [fst]. split; [reflexivity|]. split; [|reflexivity].
    erewrite SetDataResidency_unparsed; [reflexivity | apply region_eu |].
    vm_compute. reflexivity.
Qed.

(** C10: [SetDataResidency] leaves method, headers and body as they were,
    and a call that returns an error returns the descriptor it was given. *)
Theorem C10_frame (r : Request) (region : string) :
  Method (fst (SetDataResidency r region)) = Method r
  /\ Headers (fst (SetDataResidency r region)) = Headers r
  /\ Body (fst (SetDataResidency r region)) = Body r
  /\ match snd (SetDataResidency r region) with
     | Some _ => fst (SetDataResidency r region) = r
     | None => True
     end.
Proof.
  unfold SetDataResidency, extractEndpoint.
  destruct (allowedRegionsHostMap !! region) as [host|]; [|now cbn].
  destruct (url.Parse (BaseURL r)) as [err | u]; now cbn.
Qed.

(** ** The request builder *)

Lemma requestNew_authorization (hdr : string) (o : options) :
  hdr <> "Authorization" ->
  Headers (requestNew hdr o) !! "Authorization" = Some (opt_Auth o).
Proof.
  intros Hhdr. unfold requestNew. cbn [Headers].
  destruct (String.length (opt_Subuser o) =? 0)%nat.
  - apply lookup_singleton_eq.
  - rewrite lookup_insert_ne by exact Hhdr. apply lookup_singleton_eq.
Qed.

Lemma createCocoonmailRequest_auth (hdr : string) (o : CocoonmailOptions) :
  hdr <> "Authorization" ->
  Headers (createCocoonmailRequest hdr o) !! "Authorization" = Some ("Bearer " +:+ Key o).
Proof.
  intros Hhdr. unfold createCocoonmailRequest. cbn [opt_Host opt_Auth opt_Endpoint opt_Subuser].
  rewrite requestNew_authorization by exact Hhdr.
  now destruct (String.eqb (Host o) EmptyString).
Qed.

(** C1, as amended: for every Build Options value, an empty key included,
    the builder returns a request whose Authorization header is exactly
    "Bearer " followed by the key, through [GetRequest] and
    [GetRequestSubuser] alike; the on-behalf-of header has a name of its own. *)
Theorem C1_authorization_is_bearer_key (onBehalfOfHeader : string) :
  onBehalfOfHeader <> "Authorization" ->
  (forall o : CocoonmailOptions,
      Headers (createCocoonmailRequest onBehalfOfHeader o) !! "Authorization"
      = Some ("Bearer " +:+ Key o))
  /\ (forall key endpoint host : string,
        Headers (GetRequest onBehalfOfHeader key endpoint host) !! "Authorization"
        = Some ("Bearer " +:+ key))
  /\ (forall key endpoint host subuser : string,
        Headers (GetRequestSubuser onBehalfOfHeader key endpoint host subuser) !! "Authorization"
        = Some ("Bearer " +:+ key)).
Proof.
  intros Hhdr. repeat split; intros.
  - now apply createCocoonmailRequest_auth.
  - unfold GetRequest. now rewrite createCocoonmailRequest_auth.
  - unfold GetRequestSubuser. now rewrite createCocoonmailRequest_auth.
Qed.

Lemma C1_authorization_is_bearer_key_witness :
  Headers (GetRequestSubuser "On-Behalf-Of" "abc123" "/webhook/mail/send" "" "tenant-7")
    !! "Authorization"
  = Some "Bearer abc123".
Proof.
  assert (H : "On-Behalf-Of" <> "Authorization") by discriminate.
  exact (proj2 (proj2 (C1_authorization_is_bearer_key "On-Behalf-Of" H))
           "abc123" "/webhook/mail/send" "" "tenant-7").
Defined.

(** C1 as stated fails: with an empty key the builder returns a request,
    whose Authorization header is "Bearer ". *)
Lemma C1_empty_key_builds_a_request :
  Headers (createCocoonmailRequest "On-Behalf-Of"
             (mkCocoonmailOptions "" "/webhook/mail/send" "" "")) !! "Authorization"
  = Some "Bearer "
  /\ ~ builder_as_specified "On-Behalf-Of"
         (mkCocoonmailOptions "" "/webhook/mail/send" "" "").
Proof.
  split.
  - apply createCocoonmailRequest_auth. discriminate.
  - unfold builder_as_specified. cbn [Key String.eqb]. intros H. exact (H _ eq_refl).
Qed.

(** C6: key "abc123", endpoint "/webhook/mail/send" and an empty host give
    the header "Bearer abc123" and the base URL
    [https://webhook.cocoonmail.com/webhook/mail/send]; in general the base
    URL is the host, or the production host when the host is empty, followed
    by the endpoint. *)
Theorem C6_host_resolution (onBehalfOfHeader : string) :
  (Headers (GetRequest onBehalfOfHeader "abc123" "/webhook/mail/send" "") !! "Authorization"
   = Some "Bearer abc123"
   /\ BaseURL (GetRequest onBehalfOfHeader "abc123" "/webhook/mail/send" "")
      = "https://webhook.cocoonmail.com/webhook/mail/send")
  /\ (forall o : CocoonmailOptions,
        BaseURL (createCocoonmailRequest onBehalfOfHeader o)
        = (if String.eqb (Host o) EmptyString
           then "https://webhook.cocoonmail.com" else Host o) +:+ Endpoint o).
Proof.
  split; [split|].
  - unfold GetRequest, createCocoonmailRequest, requestNew. cbn. apply lookup_singleton_eq.
  - reflexivity.
  - intros o. unfold createCocoonmailRequest, requestNew.
    cbn [opt_Host opt_Auth opt_Endpoint opt_Subuser].
    now destruct (String.eqb (Host o) EmptyString).
Qed.

(** ** The mail request *)

(** C9: [NewMailSendRequest] returns a request whose recipient list,
    attachment list, remote-attachment list and custom-parameter map are
    made (not nil) and empty. *)
Theorem C9_new_request_containers (any : Type) :
  exists m : mail.MailSendRequest any,
    mail.NewMailSendRequest any = Some m
    /\ (slice_is_nil (mail.To m) = false /\ slice_len (mail.To m) = 0)
    /\ (slice_is_nil (mail.Attachments m) = false /\ slice_len (mail.Attachments m) = 0)
    /\ (slice_is_nil (mail.AttachmentsRemote m) = false
        /\ slice_len (mail.AttachmentsRemote m) = 0)
    /\ (map_is_nil (mail.CustomParameter m) = false
        /\ map_len (mail.CustomParameter m) = 0).
Proof.
  eexists. split; [reflexivity|].
  cbn [mail.To mail.Attachments mail.AttachmentsRemote mail.CustomParameter
       slice_is_nil slice_len map_is_nil map_len List.length].
  repeat split.
Qed.

(** ** Splitting an address at "@" *)

Lemma split_from_no_at (s cur : string) :
  one_of s "@" = false -> strings.split_from s "@" 0 cur = [cur +:+ s].
Proof.
  revert cur. induction s as [|x s IH]; intros cur H.
  - cbn. now rewrite append_nil_r.
  - cbn [one_of] in H. apply orb_false_iff in H as [Hx Hs].
    cbn [strings.split_from]. rewrite HasPrefix_byte, Ascii.eqb_sym, Hx.
    rewrite (IH _ Hs), append_assoc. reflexivity.
Qed.

Lemma split_from_at (a t cur : string) :
  one_of a "@" = false ->
  strings.split_from (a +:+ String "@" t) "@" 0 cur
  = (cur +:+ a) :: strings.split_from t "@" 0 EmptyString.
Proof.
  revert cur. induction a as [|x a IH]; intros cur H.
  - cbn [String.append strings.split_from]. rewrite HasPrefix_byte.
    cbn. now rewrite append_nil_r.
  - cbn [one_of] in H. apply orb_false_iff in H as [Hx Ha].
    cbn [String.append strings.split_from]. rewrite HasPrefix_byte, Ascii.eqb_sym, Hx.
    rewrite (IH _ Ha), append_assoc. reflexivity.
Qed.

(** A string has no "@", or a first one. *)
Lemma first_at (s : string) :
  one_of s "@" = false
  \/ exists a t : string, s = a +:+ String "@" t /\ one_of a "@" = false.
Proof.
  induction s as [|x s IH]; [now left|].
  destruct (Ascii.eqb "@" x) eqn:Hx.
  - right. exists EmptyString, s. apply Ascii.eqb_eq in Hx. subst x. now split.
  - destruct IH as [Hs | (a & t & -> & Ha)].
    + left. cbn [one_of]. now rewrite Hx, Hs.
    + right. exists (String x a), t. split; [reflexivity|].
      cbn [one_of]. now rewrite Hx, Ha.
Qed.

(** [LastIndex] finds the "@" after which there is none. *)
Lemma LastIndex_at (s : string) :
  match strings.LastIndex s "@" with
  | Some i => exists L D : string,
      s = L +:+ String "@" D /\ String.length L = i /\ one_of D "@" = false
  | None => one_of s "@" = false
  end.
Proof.
  induction s as [|x s IH]; [reflexivity|].
  cbn [strings.LastIndex].
  destruct (strings.LastIndex s "@") as [i|].
  - destruct IH as (L & D & -> & HL & HD).
    exists (String x L), D. cbn [String.append String.length]. auto.
  - rewrite HasPrefix_byte. destruct (Ascii.eqb x "@") eqn:Hx.
    + apply Ascii.eqb_eq in Hx. subst x. exists EmptyString, s. auto.
    + cbn [one_of]. now rewrite Ascii.eqb_sym, Hx, IH.
Qed.

Lemma slice_from_after (L D : string) (c : ascii) :
  slice_from (S (String.length L)) (L +:+ String c D) = D.
Proof. induction L as [|y L IH]; [reflexivity | exact IH]. Qed.

Lemma spec_parts_inv (address local domain : string) :
  spec_parts address = Some (local, domain) ->
  address = local +:+ String "@" domain /\ one_of domain "@" = false.
Proof.
  unfold spec_parts. pose proof (LastIndex_at address) as H.
  destruct (strings.LastIndex address "@") as [i|]; [|discriminate].
  destruct H as (L & D & -> & <- & HD).
  rewrite slice_to_append, slice_from_after. intros [= <- <-]. auto.
Qed.

(** The first two parts of [Split] on an address whose last "@" separates
    [local] from [domain]: these two, or two pieces of [local]. *)
Lemma Split_first_two (local domain : string) :
  one_of domain "@" = false ->
  exists (p0 p1 : string) (more : list string),
    strings.Split (local +:+ String "@" domain) "@" = p0 :: p1 :: more
    /\ ((p0 = local /\ p1 = domain /\ more = [])
        \/ String.length p0 + String.length p1 < String.length local).
Proof.
  intros HD. unfold strings.Split.
  destruct (first_at local) as [HL | (a & t & -> & Ha)].
  - exists local, domain, []. rewrite (split_from_at _ _ _ HL), (split_from_no_at _ _ HD).
    auto.
  - rewrite append_assoc. cbn [String.append].
    rewrite (split_from_at _ _ _ Ha).
    destruct (first_at t) as [Ht | (a1 & t1 & -> & Ha1)].
    + exists a, t, [domain].
      rewrite (split_from_at _ _ _ Ht), (split_from_no_at _ _ HD).
      split; [reflexivity|]. right. rewrite length_append. cbn [String.length]. lia.
    + rewrite append_assoc. cbn [String.append]. rewrite (split_from_at _ _ _ Ha1).
      eexists a, a1, _. split; [reflexivity|]. right.
      rewrite !length_append. cbn [String.length]. rewrite length_append.
      cbn [String.length]. lia.
Qed.

(** ** [ParseEmail] *)

Section ParseEmail.

Variable any : Type.
Variable mail_ParseAddress : string -> result netmail.Address.

(** [ParseEmail] after the parse, on the parts [Split] gives. *)
Lemma ParseEmail_parts (s : string) (e : netmail.Address)
    (p0 p1 : string) (more : list string) :
  mail_ParseAddress s = inr e ->
  strings.Split (netmail.Addr e) "@" = p0 :: p1 :: more ->
  mail.ParseEmail any mail_ParseAddress s
  = Returned
      (if (320 <? String.length (netmail.Addr e))%nat then (None, Some total_error)
       else if (255 <? String.length p1)%nat then (None, Some domain_error)
       else if (64 <? String.length p0)%nat then (None, Some local_error)
       else (mail.NewMailRecipient any (netmail.Name e) (netmail.Addr e), None)).
Proof.
  intros He Hparts. unfold mail.ParseEmail. rewrite He, Hparts.
  change mail.maxEmailLength with 320. change mail.maxEmailDomainLength with 255.
  change mail.maxEmailLocalLength with 64.
  cbn [lookup list_lookup].
  destruct (320 <? String.length (netmail.Addr e))%nat; [reflexivity|].
  destruct (255 <? String.length p1)%nat; [reflexivity|].
  destruct (64 <? String.length p0)%nat; reflexivity.
Qed.

(** X16: with a single "@" in the address the limits are checked on its
    local and its domain part, in the order total, domain, local. *)
Lemma ParseEmail_one_at (s : string) (e : netmail.Address) (local domain : string) :
  mail_ParseAddress s = inr e ->
  netmail.Addr e = local +:+ String "@" domain ->
  one_of local "@" = false -> one_of domain "@" = false ->
  mail.ParseEmail any mail_ParseAddress s
  = Returned
      (if (320 <? String.length (netmail.Addr e))%nat then (None, Some total_error)
       else if (255 <? String.length domain)%nat then (None, Some domain_error)
       else if (64 <? String.length local)%nat then (None, Some local_error)
       else (mail.NewMailRecipient any (netmail.Name e) (netmail.Addr e), None)).
Proof.
  intros He Haddr HL HD. apply ParseEmail_parts with (more := []); [exact He|].
  rewrite Haddr. unfold strings.Split.
  now rewrite (split_from_at _ _ _ HL), (split_from_no_at _ _ HD).
Qed.

End ParseEmail.

(** C5: when [mail.ParseAddress] accepts the input, and the address it gives
    has at most 320 bytes, a domain part of at most 255 and a local part of
    at most 64 (the parts before and after the last "@"), [ParseEmail]
    returns a recipient and no error; the recipient's [Name] is the parsed
    display name and its [Email] the parsed address. *)
Theorem C5_within_limits_accepted (any : Type)
    (mail_ParseAddress : string -> result netmail.Address)
    (s : string) (e : netmail.Address) (local domain : string) :
  mail_ParseAddress s = inr e ->
  spec_parts (netmail.Addr e) = Some (local, domain) ->
  String.length (netmail.Addr e) <= 320 ->
  String.length domain <= 255 ->
  String.length local <= 64 ->
  exists rcpt : mail.MailRecipient any,
    mail.ParseEmail any mail_ParseAddress s = Returned (Some rcpt, None)
    /\ mail.Name rcpt = netmail.Name e
    /\ mail.Email rcpt = netmail.Addr e.
Proof.
  intros He Hparts Htotal Hdomain Hlocal.
  apply spec_parts_inv in Hparts as [Haddr HD].
  destruct (Split_first_two local domain HD) as (p0 & p1 & more & Hsplit & Hcase).
  rewrite <- Haddr in Hsplit.
  rewrite (ParseEmail_parts any mail_ParseAddress s e p0 p1 more He Hsplit).
  assert (String.length p1 <= 255 /\ String.length p0 <= 64) as [H1 H0].
  { destruct Hcase as [(-> & -> & _) | Hlt]; lia. }
  apply Nat.ltb_ge in Htotal, H1, H0. rewrite Htotal, H1, H0.
  eexists. split; [reflexivity|]. split; reflexivity.
Qed.

Lemma C5_within_limits_accepted_witness :
  exists rcpt : mail.MailRecipient unit,
    mail.ParseEmail unit netmail.ParseAddress "Bob Smith <bob@example.com>"
    = Returned (Some rcpt, None)
    /\ mail.Name rcpt = "Bob Smith"
    /\ mail.Email rcpt = "bob@example.com".
Proof.
  apply (C5_within_limits_accepted unit netmail.ParseAddress
           "Bob Smith <bob@example.com>"
           (netmail.mkAddress "Bob Smith" "bob@example.com") "bob" "example.com").
  - vm_compute. reflexivity.
  - vm_compute. reflexivity.
  - cbn. lia.
  - cbn. lia.
  - cbn. lia.
Defined.

(** C3, at an input that shows the split: the address [a@b@d...d.com] of a
    quoted local part [a@b] and a domain of 256 bytes is cut by [Split] at
    its first "@", the domain checked is [b], and [ParseEmail] accepts it. *)
Theorem C3_split_at_first_at (any : Type)
    (mail_ParseAddress : string -> result netmail.Address) :
  let domain := repeat_byte "d" 252 +:+ ".com" in
  let address := "a@b@" +:+ domain in
  mail_ParseAddress (quoted "a@b" +:+ "@" +:+ domain)
  = inr (netmail.mkAddress EmptyString address) ->
  spec_parts address = Some ("a@b", domain)
  /\ String.length domain = 256
  /\ strings.Split address "@" = ["a"; "b"; domain]
  /\ mail.ParseEmail any mail_ParseAddress (quoted "a@b" +:+ "@" +:+ domain)
     = Returned (mail.NewMailRecipient any EmptyString address, None).
Proof.
  intros domain address He.
  assert (Hsplit : strings.Split address "@" = ["a"; "b"; domain])
    by (vm_compute; reflexivity).
  split; [|split; [|split]].
  - vm_compute. reflexivity.
  - vm_compute. reflexivity.
  - exact Hsplit.
  - rewrite (ParseEmail_parts any mail_ParseAddress _ _ _ _ _ He Hsplit).
    vm_compute. reflexivity.
Qed.

Lemma C3_split_at_first_at_witness :
  let domain := repeat_byte "d" 252 +:+ ".com" in
  let address := "a@b@" +:+ domain in
  spec_parts address = Some ("a@b", domain)
  /\ String.length domain = 256
  /\ strings.Split address "@" = ["a"; "b"; domain]
  /\ mail.ParseEmail unit netmail.ParseAddress (quoted "a@b" +:+ "@" +:+ domain)
     = Returned (mail.NewMailRecipient unit EmptyString address, None).
Proof.
  apply (C3_split_at_first_at unit netmail.ParseAddress).
  vm_compute. reflexivity.
Defined.

(** C4, at two inputs with a quoted "@": an address whose local part has
    65 bytes and whose domain is short is accepted, and an address whose
    only breach is a local part of 258 bytes is turned down with the
    domain-length error. *)
Theorem C4_limits_judged_on_wrong_parts (any : Type)
    (mail_ParseAddress : string -> result netmail.Address) :
  let local65 := "a@" +:+ repeat_byte "x" 63 in
  let local258 := "a@" +:+ repeat_byte "b" 256 in
  mail_ParseAddress (quoted local65 +:+ "@b.co")
  = inr (netmail.mkAddress EmptyString (local65 +:+ "@b.co")) ->
  mail_ParseAddress (quoted local258 +:+ "@c.com")
  = inr (netmail.mkAddress EmptyString (local258 +:+ "@c.com")) ->
  (spec_parts (local65 +:+ "@b.co") = Some (local65, "b.co")
   /\ String.length local65 = 65
   /\ mail.ParseEmail any mail_ParseAddress (quoted local65 +:+ "@b.co")
      = Returned (mail.NewMailRecipient any EmptyString (local65 +:+ "@b.co"), None))
  /\ (spec_parts (local258 +:+ "@c.com") = Some (local258, "c.com")
      /\ String.length (local258 +:+ "@c.com") = 264
      /\ String.length local258 = 258
      /\ mail.ParseEmail any mail_ParseAddress (quoted local258 +:+ "@c.com")
         = Returned (None, Some domain_error)).
Proof.
  intros local65 local258 He1 He2.
  assert (Hs1 : strings.Split (local65 +:+ "@b.co") "@" = ["a"; repeat_byte "x" 63; "b.co"])
    by (vm_compute; reflexivity).
  assert (Hs2 : strings.Split (local258 +:+ "@c.com") "@" = ["a"; repeat_byte "b" 256; "c.com"])
    by (vm_compute; reflexivity).
  split; [split; [|split] | split; [|split; [|split]]].
  - vm_compute. reflexivity.
  - vm_compute. reflexivity.
  - rewrite (ParseEmail_parts any mail_ParseAddress _ _ _ _ _ He1 Hs1).
    vm_compute. reflexivity.
  - vm_compute. reflexivity.
  - vm_compute. reflexivity.
  - vm_compute. reflexivity.
  - rewrite (ParseEmail_parts any mail_ParseAddress _ _ _ _ _ He2 Hs2).
    vm_compute. reflexivity.
Qed.

Lemma C4_limits_judged_on_wrong_parts_witness :
  let local65 := "a@" +:+ repeat_byte "x" 63 in
  let local258 := "a@" +:+ repeat_byte "b" 256 in
  (spec_parts (local65 +:+ "@b.co") = Some (local65, "b.co")
   /\ String.length local65 = 65
   /\ mail.ParseEmail unit netmail.ParseAddress (quoted local65 +:+ "@b.co")
      = Returned (mail.NewMailRecipient unit EmptyString (local65 +:+ "@b.co"), None))
  /\ (spec_parts (local258 +:+ "@c.com") = Some (local258, "c.com")
      /\ String.length (local258 +:+ "@c.com") = 264
      /\ String.length local258 = 258
      /\ mail.ParseEmail unit netmail.ParseAddress (quoted local258 +:+ "@c.com")
         = Returned (None, Some domain_error)).
Proof.
  apply (C4_limits_judged_on_wrong_parts unit netmail.ParseAddress);
    vm_compute; reflexivity.
Defined.

(** ** More of [url.Parse]: a query and a fragment after the path *)

Lemma Count_cons (x c : ascii) (s : string) :
  strings.Count (String x s) (String c EmptyString)
  = (if Ascii.eqb x c then 1 else 0) + strings.Count s (String c EmptyString).
Proof.
  unfold strings.Count. cbn [strings.count_from]. rewrite HasPrefix_byte.
  now destruct (Ascii.eqb x c).
Qed.

Lemma Count_append (a b : string) (c : ascii) :
  strings.Count (a +:+ b) (String c EmptyString)
  = strings.Count a (String c EmptyString) + strings.Count b (String c EmptyString).
Proof.
  induction a as [|x a IH]; [reflexivity|].
  cbn [String.append]. rewrite !Count_cons, IH. lia.
Qed.

Lemma Count_zero (s : string) (c : ascii) :
  strings.Count s (String c EmptyString) = 0 -> one_of s c = false.
Proof.
  induction s as [|x s IH]; [reflexivity|].
  rewrite Count_cons. cbn [one_of]. rewrite (Ascii.eqb_sym c x).
  destruct (Ascii.eqb x c); [discriminate|]. intros H. now rewrite IH.
Qed.

Lemma HasSuffix_byte (s : string) (c : ascii) :
  strings.HasSuffix s (String c EmptyString) = true ->
  s = slice_to (String.length s - 1) s +:+ String c EmptyString.
Proof.
  induction s as [|x s IH]; [discriminate|].
  destruct s as [|y s'].
  - intros H. destruct (Ascii.eqb_spec x c) as [->|Hne]; [reflexivity|].
    exfalso. unfold strings.HasSuffix in H.
    cbn [String.length Nat.leb Nat.sub slice_from String.eqb andb] in H.
    apply Ascii.eqb_neq in Hne. rewrite Hne in H. discriminate.
  - intros H.
    assert (strings.HasSuffix (String y s') (String c EmptyString) = true) as H'.
    { revert H. unfold strings.HasSuffix. cbn [String.length].
      replace (S (S (String.length s')) - 1) with (S (S (String.length s') - 1)) by lia.
      auto. }
    specialize (IH H'). cbn [String.length] in *.
    replace (S (S (String.length s')) - 1) with (S (S (String.length s') - 1)) by lia.
    cbn [slice_to String.append]. now rewrite <- IH.
Qed.

(** What [parse] keeps as [rest] when a query follows: the part before the
    first "?", by either branch of the split. *)
Lemma query_split (A q : string) :
  one_of A "?" = false ->
  exists (rawQuery : string) (forceQuery : bool),
    (if strings.HasSuffix (A +:+ String "?" q) "?"
        && (strings.Count (A +:+ String "?" q) "?" =? 1)%nat
     then (slice_to (String.length (A +:+ String "?" q) - 1) (A +:+ String "?" q),
           EmptyString, true)
     else let '(r, q', _) := strings.Cut (A +:+ String "?" q) "?" in (r, q', false))
    = (A, rawQuery, forceQuery).
Proof.
  intros HA.
  destruct (strings.HasSuffix (A +:+ String "?" q) "?"
            && (strings.Count (A +:+ String "?" q) "?" =? 1)%nat) eqn:Hc.
  - apply andb_true_iff in Hc as [Hs Hn]. apply Nat.eqb_eq in Hn.
    exists EmptyString, true. f_equal. f_equal.
    pose proof (HasSuffix_byte _ _ Hs) as Hx.
    set (X := slice_to (String.length (A +:+ String "?" q) - 1) (A +:+ String "?" q)) in *.
    assert (HX : one_of X "?" = false).
    { apply Count_zero. rewrite Hx, Count_append, Count_cons in Hn. cbn in Hn. lia. }
    pose proof (Index_first A q "?" HA) as I1.
    rewrite Hx in I1. rewrite (Index_first X EmptyString "?" HX) in I1.
    injection I1 as Hlen.
    rewrite <- (slice_to_append X (String "?" EmptyString)), <- Hx, Hlen.
    apply slice_to_append.
  - exists q, false. unfold strings.Cut. rewrite (Index_first A q "?" HA).
    rewrite slice_to_append. cbn [String.length].
    replace (String.length A + 1) with (S (String.length A)) by lia.
    now rewrite slice_from_after.
Qed.

Lemma query_split_opt (A : string) (Q : option string) :
  one_of A "?" = false ->
  exists (rawQuery : string) (forceQuery : bool),
    (if strings.HasSuffix (A +:+ query_part Q) "?"
        && (strings.Count (A +:+ query_part Q) "?" =? 1)%nat
     then (slice_to (String.length (A +:+ query_part Q) - 1) (A +:+ query_part Q),
           EmptyString, true)
     else let '(r, q', _) := strings.Cut (A +:+ query_part Q) "?" in (r, q', false))
    = (A, rawQuery, forceQuery).
Proof.
  intros HA. destruct Q as [q|].
  - apply (query_split A q HA).
  - cbn [query_part]. rewrite append_nil_r.
    rewrite (Count_absent _ _ HA), andb_false_r, (Cut_absent _ _ HA). eauto.
Qed.

Lemma unescape_check_fragment (f : string) (n : nat) :
  one_of f "%" = false ->
  url.unescape_check f url.encodeFragment n false = inr (n, false).
Proof.
  induction f as [|c f IH]; intros H; [reflexivity|].
  cbn [one_of] in H. apply orb_false_iff in H as [Hc Hf].
  rewrite Ascii.eqb_sym in Hc.
  cbn [url.unescape_check]. rewrite Hc.
  cbn [url.is_mode orb andb]. rewrite (IH Hf).
  now destruct (Ascii.eqb c "+").
Qed.

Lemma parse_https_query (name p : string) (Q : option string)
    (user : option url.Userinfo) (host : string) :
  one_of name "/" = false -> one_of name "?" = false ->
  url.stringContainsCTLByte name = false ->
  url.parseAuthority name = inr (user, host) ->
  plain_path p = true ->
  url.stringContainsCTLByte (query_part Q) = false ->
  exists (rawQuery : string) (forceQuery : bool),
    url.parse ("https:" +:+ (("//" +:+ name +:+ p) +:+ query_part Q)) false
    = inr (url.mkURL "https" EmptyString user host p forceQuery rawQuery EmptyString).
Proof.
  intros Hslash Hq Hctl Hauth Hp HQ.
  apply andb_true_iff in Hp as [Hhead Hplain].
  destruct (plain_bytes_absent p Hplain) as (Pe & Pq & Pf).
  pose proof (plain_bytes_no_CTL p Hplain) as Pctl.
  assert (HA : one_of ("//" +:+ name +:+ p) "?" = false).
  { cbn [String.append one_of]. rewrite one_of_append, Hq, Pq. reflexivity. }
  destruct (query_split_opt _ Q HA) as (rq & fq & Hsplit).
  exists rq, fq.
  unfold url.parse.
  assert (url.stringContainsCTLByte
            ("https:" +:+ (("//" +:+ name +:+ p) +:+ query_part Q)) = false) as ->.
  { rewrite !stringContainsCTLByte_append, Hctl, Pctl, HQ. reflexivity. }
  rewrite getScheme_https.
  set (A := "//" +:+ name +:+ p) in *.
  cbn [String.append String.eqb Ascii.eqb Bool.eqb andb bind].
  rewrite Hsplit.
  change (strings.ToLower "https") with "https".
  subst A.
  cbn [String.append strings.HasPrefix String.eqb Ascii.eqb Bool.eqb
       andb orb negb slice_from].
  destruct p as [|c q].
  - rewrite append_nil_r, (Index_absent _ _ Hslash), Hauth. reflexivity.
  - cbn [String.eqb orb strings.HasPrefix] in Hhead.
    apply andb_true_iff in Hhead as [Hc _]. apply Ascii.eqb_eq in Hc. subst c.
    rewrite (Index_first _ _ _ Hslash), slice_to_append, slice_from_append, Hauth.
    cbn [bind]. unfold url.setPath. cbn [url.Scheme url.Opaque url.User url.Host
      url.ForceQuery url.RawQuery url.Fragment].
    rewrite (unescape_plain _ Pe). reflexivity.
Qed.

(** After [https://name] and a plain path, a query and a fragment leave the
    parsed path as it is. *)
Lemma Parse_https_tail (name p : string) (Q F : option string)
    (user : option url.Userinfo) (host : string) :
  one_of name "/" = false -> one_of name "?" = false -> one_of name "#" = false ->
  url.stringContainsCTLByte name = false ->
  url.parseAuthority name = inr (user, host) ->
  plain_path p = true ->
  url.stringContainsCTLByte (query_part Q) = false ->
  one_of (query_part Q) "#" = false ->
  one_of (fragment_part F) "%" = false ->
  exists u : url.URL,
    url.Parse (("https://" +:+ name +:+ p) +:+ query_part Q +:+ fragment_part F) = inr u
    /\ url.Path u = p.
Proof.
  intros Hslash Hq Hf Hctl Hauth Hp HQctl HQf HF.
  destruct (parse_https_query name p Q user host Hslash Hq Hctl Hauth Hp HQctl)
    as (rq & fq & Hparse).
  assert (Hbase : one_of ("https:" +:+ (("//" +:+ name +:+ p) +:+ query_part Q)) "#" = false).
  { apply andb_true_iff in Hp as [_ Hplain].
    destruct (plain_bytes_absent p Hplain) as (_ & _ & Pf).
    cbn [String.append one_of]. rewrite !one_of_append, Hf, Pf, HQf. reflexivity. }
  assert (Heq : ("https://" +:+ name +:+ p) +:+ query_part Q +:+ fragment_part F
                = ("https:" +:+ (("//" +:+ name +:+ p) +:+ query_part Q)) +:+ fragment_part F).
  { cbn [String.append]. now rewrite !append_assoc. }
  rewrite Heq. clear Heq.
  set (B := "https:" +:+ (("//" +:+ name +:+ p) +:+ query_part Q)) in *.
  unfold url.Parse.
  destruct F as [f|]; cbn [fragment_part] in *.
  - change ("#" +:+ f) with (String "#" f) in *.
    unfold strings.Cut.
    rewrite (Index_first B f "#" Hbase), slice_to_append. cbn [String.length].
    replace (String.length B + 1) with (S (String.length B)) by lia.
    rewrite slice_from_after, Hparse.
    destruct (String.eqb f EmptyString); [eauto|].
    unfold url.setFragment, url.unescape.
    cbn [one_of] in HF. apply orb_false_iff in HF as [_ HF].
    rewrite (unescape_check_fragment _ _ HF). cbn. eauto.
  - rewrite append_nil_r, (Cut_absent _ _ Hbase), Hparse. cbn. eauto.
Qed.

Lemma Parse_regional_tail (region host p : string) (Q F : option string) :
  allowedRegionsHostMap !! region = Some host ->
  plain_path p = true ->
  url.stringContainsCTLByte (query_part Q) = false ->
  one_of (query_part Q) "#" = false ->
  one_of (fragment_part F) "%" = false ->
  exists u : url.URL,
    url.Parse (host +:+ p +:+ query_part Q +:+ fragment_part F) = inr u
    /\ url.Path u = p.
Proof.
  intros H Hp HQ1 HQ2 HF. destruct (region_hosts _ _ H) as [-> | ->].
  - destruct (Parse_https_tail "api.eu.cocoonmail.com" p Q F None "api.eu.cocoonmail.com")
      as (u & Hu & Hpath); try solve [reflexivity | assumption].
    exists u. split; [|exact Hpath]. rewrite <- Hu. reflexivity.
  - destruct (Parse_https_tail "webhook.cocoonmail.com" p Q F None "webhook.cocoonmail.com")
      as (u & Hu & Hpath); try solve [reflexivity | assumption].
    exists u. split; [|exact Hpath]. rewrite <- Hu. reflexivity.
Qed.

(** X1: [SetDataResidency] drops the query and the fragment of the base URL: a
    base URL made of a host of the table, a plain path, a query without "#"
    and control bytes and a fragment without "%" becomes the region's host
    followed by the path alone. *)
Theorem SetDataResidency_drops_query_and_fragment
    (r : Request) (region0 host0 region host p : string) (Q F : option string) :
  allowedRegionsHostMap !! region0 = Some host0 ->
  allowedRegionsHostMap !! region = Some host ->
  BaseURL r = host0 +:+ p +:+ query_part Q +:+ fragment_part F ->
  plain_path p = true ->
  url.stringContainsCTLByte (query_part Q) = false ->
  one_of (query_part Q) "#" = false ->
  one_of (fragment_part F) "%" = false ->
  SetDataResidency r region
  = (mkRequest (Method r) (host +:+ p) (Headers r) (Body r), None).
Proof.
  intros H0 H Hbase Hp HQ1 HQ2 HF.
  destruct (Parse_regional_tail region0 host0 p Q F H0 Hp HQ1 HQ2 HF) as (u & Hu & Hpath).
  rewrite <- Hbase in Hu.
  rewrite (SetDataResidency_parsed r region host u H Hu). now rewrite Hpath.
Qed.

Lemma SetDataResidency_drops_query_and_fragment_witness :
  SetDataResidency
    (send_request "https://webhook.cocoonmail.com/webhook/mail/send?dry_run=1&tag=a%20b#retry")
    "eu"
  = (send_request "https://api.eu.cocoonmail.com/webhook/mail/send", None).
Proof.
  apply (SetDataResidency_drops_query_and_fragment
           (send_request "https://webhook.cocoonmail.com/webhook/mail/send?dry_run=1&tag=a%20b#retry")
           "global" "https://webhook.cocoonmail.com" "eu" "https://api.eu.cocoonmail.com"
           "/webhook/mail/send" (Some "dry_run=1&tag=a%20b") (Some "retry"));
    solve [apply region_global | apply region_eu | reflexivity].
Defined.

(** X2: The last region wins: after a [SetDataResidency] for one region of the
    table, a second one for another region of the table returns what it
    would have returned on the original descriptor, when the base URL does
    not parse or parses to a plain path. *)
Theorem SetDataResidency_last_region_wins (r : Request) (first second : string) :
  first = "eu" \/ first = "global" ->
  second = "eu" \/ second = "global" ->
  match url.Parse (BaseURL r) with
  | inr u => plain_path (url.Path u) = true
  | inl _ => True
  end ->
  SetDataResidency (fst (SetDataResidency r first)) second = SetDataResidency r second.
Proof.
  intros Hfirst Hsecond Hpath.
  assert (exists h1, allowedRegionsHostMap !! first = Some h1) as [h1 Hh1].
  { destruct Hfirst as [-> | ->]; eexists; [apply region_eu | apply region_global]. }
  assert (exists h2, allowedRegionsHostMap !! second = Some h2) as [h2 Hh2].
  { destruct Hsecond as [-> | ->]; eexists; [apply region_eu | apply region_global]. }
  destruct (url.Parse (BaseURL r)) as [err | u] eqn:Hu.
  - now rewrite (SetDataResidency_unparsed r first h1 err Hh1 Hu).
  - rewrite (SetDataResidency_parsed r first h1 u Hh1 Hu). cbn [fst].
    destruct (Parse_regional first h1 (url.Path u) Hh1 Hpath) as (u' & Hu' & Hp').
    rewrite (SetDataResidency_parsed
               (mkRequest (Method r) (h1 +:+ url.Path u) (Headers r) (Body r))
               second h2 u' Hh2 Hu').
    rewrite (SetDataResidency_parsed r second h2 u Hh2 Hu).
    cbn [Method Headers Body]. now rewrite Hp'.
Qed.

Lemma SetDataResidency_last_region_wins_witness :
  SetDataResidency
    (fst (SetDataResidency (send_request "https://webhook.cocoonmail.com/v1/send?x=1") "eu"))
    "global"
  = SetDataResidency (send_request "https://webhook.cocoonmail.com/v1/send?x=1") "global".
Proof.
  apply (SetDataResidency_last_region_wins
           (send_request "https://webhook.cocoonmail.com/v1/send?x=1") "eu" "global").
  - left. reflexivity.
  - right. reflexivity.
  - vm_compute. reflexivity.
Defined.

(** X3: On a descriptor at the production host with a plain path, the region
    "global" changes nothing, and it undoes a move to "eu". *)
Theorem SetDataResidency_global_restores (r : Request) (p : string) :
  BaseURL r = "https://webhook.cocoonmail.com" +:+ p ->
  plain_path p = true ->
  SetDataResidency r "global" = (r, None)
  /\ SetDataResidency (fst (SetDataResidency r "eu")) "global" = (r, None).
Proof.
  intros Hbase Hp.
  destruct (Parse_regional "global" _ p region_global Hp) as (u & Hu & Hpath).
  rewrite <- Hbase in Hu.
  assert (Hg : SetDataResidency r "global" = (r, None)).
  { rewrite (SetDataResidency_parsed r "global" _ u region_global Hu), Hpath, <- Hbase.
    now destruct r. }
  split; [exact Hg|].
  rewrite (SetDataResidency_parsed r "eu" _ u region_eu Hu), Hpath. cbn [fst].
  destruct (Parse_regional "eu" _ p region_eu Hp) as (u' & Hu' & Hpath').
  rewrite (SetDataResidency_parsed
             (mkRequest (Method r) ("https://api.eu.cocoonmail.com" +:+ p) (Headers r) (Body r))
             "global" _ u' region_global Hu').
  cbn [Method Headers Body]. rewrite Hpath', <- Hbase. now destruct r.
Qed.

Lemma SetDataResidency_global_restores_witness :
  SetDataResidency (send_request "https://webhook.cocoonmail.com/webhook/mail/send") "global"
  = (send_request "https://webhook.cocoonmail.com/webhook/mail/send", None)
  /\ SetDataResidency
       (fst (SetDataResidency
               (send_request "https://webhook.cocoonmail.com/webhook/mail/send") "eu"))
       "global"
     = (send_request "https://webhook.cocoonmail.com/webhook/mail/send", None).
Proof.
  apply (SetDataResidency_global_restores
           (send_request "https://webhook.cocoonmail.com/webhook/mail/send")
           "/webhook/mail/send"); reflexivity.
Defined.

Lemma Parse_path_only (p : string) :
  plain_path p = true ->
  strings.HasPrefix p "//" = false ->
  url.Parse p
  = inr (url.mkURL EmptyString EmptyString None EmptyString p false EmptyString EmptyString).
Proof.
  intros Hp Hnet.
  apply andb_true_iff in Hp as [Hhead Hplain].
  destruct (plain_bytes_absent p Hplain) as (Pe & Pq & Pf).
  pose proof (plain_bytes_no_CTL p Hplain) as Pctl.
  unfold url.Parse. rewrite (Cut_absent _ _ Pf).
  assert (Hparse : url.parse p false
          = inr (url.mkURL EmptyString EmptyString None EmptyString p false
                           EmptyString EmptyString)).
  { unfold url.parse. rewrite Pctl, andb_false_r.
    destruct p as [|c q]; [reflexivity|].
    cbn [String.eqb orb strings.HasPrefix] in Hhead.
    apply andb_true_iff in Hhead as [Hc _]. apply Ascii.eqb_eq in Hc. subst c.
    change (url.getScheme (String "/" q)) with (@inr error _ (EmptyString, String "/" q)).
    cbn [bind String.eqb Ascii.eqb Bool.eqb andb].
    rewrite (Count_absent _ _ Pq), andb_false_r, (Cut_absent _ _ Pq).
    change (strings.ToLower EmptyString) with EmptyString.
    rewrite Hnet.
    cbn [strings.HasPrefix String.eqb Ascii.eqb Bool.eqb andb orb negb].
    rewrite andb_false_r.
    unfold url.setPath. cbn [url.Scheme url.Opaque url.User url.Host
      url.ForceQuery url.RawQuery url.Fragment].
    rewrite (unescape_plain _ Pe). reflexivity. }
  rewrite Hparse. reflexivity.
Qed.

(** X4: A base URL that is only a plain path (empty, or "/..." but not
    "//...") gets the region's host in front: the call succeeds and the path
    is kept. *)
Theorem SetDataResidency_path_only (r : Request) (region host : string) :
  allowedRegionsHostMap !! region = Some host ->
  plain_path (BaseURL r) = true ->
  strings.HasPrefix (BaseURL r) "//" = false ->
  SetDataResidency r region
  = (mkRequest (Method r) (host +:+ BaseURL r) (Headers r) (Body r), None).
Proof.
  intros H Hp Hnet.
  now rewrite (SetDataResidency_parsed r region host _ H (Parse_path_only _ Hp Hnet)).
Qed.

Lemma SetDataResidency_path_only_witness :
  SetDataResidency (send_request "/webhook/mail/send") "eu"
  = (send_request "https://api.eu.cocoonmail.com/webhook/mail/send", None).
Proof.
  apply (SetDataResidency_path_only (send_request "/webhook/mail/send") "eu"
           "https://api.eu.cocoonmail.com");
    solve [apply region_eu | reflexivity].
Defined.

(** X5: A control byte in a base URL without "#" makes [SetDataResidency] fail
    for a region of the table: the descriptor comes back as it was, with the
    parse error of [net/url] that quotes the base URL. *)
Theorem SetDataResidency_control_byte (r : Request) (region host : string) :
  allowedRegionsHostMap !! region = Some host ->
  one_of (BaseURL r) "#" = false ->
  url.stringContainsCTLByte (BaseURL r) = true ->
  SetDataResidency r region
  = (r, Some (UrlError "parse" (BaseURL r)
                (errorString "net/url: invalid control character in URL"))).
Proof.
  intros H Hf Hctl.
  apply (SetDataResidency_unparsed r region host _ H).
  unfold url.Parse. rewrite (Cut_absent _ _ Hf). unfold url.parse. now rewrite Hctl.
Qed.

Lemma SetDataResidency_control_byte_witness :
  SetDataResidency
    (send_request ("https://webhook.cocoonmail.com/send" +:+ String (ascii_of_nat 10) "x"))
    "eu"
  = (send_request ("https://webhook.cocoonmail.com/send" +:+ String (ascii_of_nat 10) "x"),
     Some (UrlError "parse"
             ("https://webhook.cocoonmail.com/send" +:+ String (ascii_of_nat 10) "x")
             (errorString "net/url: invalid control character in URL"))).
Proof.
  apply (SetDataResidency_control_byte
           (send_request ("https://webhook.cocoonmail.com/send" +:+ String (ascii_of_nat 10) "x"))
           "eu" "https://api.eu.cocoonmail.com");
    solve [apply region_eu | reflexivity].
Defined.

(** ** Builder and router together *)

(** X6: Building at the production host and then moving to a region of the
    table gives the request built at that region's host, for a plain
    endpoint. *)
Theorem SetDataResidency_of_built_request
    (onBehalfOfHeader key endpoint subuser region host : string) :
  allowedRegionsHostMap !! region = Some host ->
  plain_path endpoint = true ->
  SetDataResidency (GetRequestSubuser onBehalfOfHeader key endpoint EmptyString subuser) region
  = (GetRequestSubuser onBehalfOfHeader key endpoint host subuser, None).
Proof.
  intros H Hp.
  destruct (Parse_regional "global" _ endpoint region_global Hp) as (u & Hu & Hpath).
  assert (Hhost : String.eqb host EmptyString = false).
  { destruct (region_hosts _ _ H) as [-> | ->]; reflexivity. }
  unfold GetRequestSubuser, createCocoonmailRequest.
  cbn [Key Endpoint Host Subuser opt_Host opt_Auth opt_Endpoint opt_Subuser String.eqb].
  rewrite Hhost.
  erewrite SetDataResidency_parsed; [| exact H | exact Hu].
  unfold requestNew. cbn [Method Headers Body opt_Host opt_Auth opt_Endpoint opt_Subuser].
  now rewrite Hpath.
Qed.

Lemma SetDataResidency_of_built_request_witness :
  SetDataResidency
    (GetRequestSubuser "On-Behalf-Of" "abc123" "/webhook/mail/send" "" "tenant-7") "eu"
  = (GetRequestSubuser "On-Behalf-Of" "abc123" "/webhook/mail/send"
       "https://api.eu.cocoonmail.com" "tenant-7", None).
Proof.
  apply (SetDataResidency_of_built_request "On-Behalf-Of" "abc123" "/webhook/mail/send"
           "tenant-7" "eu" "https://api.eu.cocoonmail.com");
    solve [apply region_eu | reflexivity].
Defined.

(** ** The builder methods of the mail request *)

Lemma append_slice_nil {A : Type} (s : slice A) : append_slice s [] = s.
Proof. destruct s as [|elems]; [reflexivity|]. cbn. now rewrite app_nil_r. Qed.

Lemma append_slice_append {A : Type} (s : slice A) (xs ys : list A) :
  append_slice (append_slice s xs) ys = append_slice s (xs ++ ys).
Proof.
  destruct s as [|elems].
  - destruct xs as [|x xs]; [reflexivity|]. reflexivity.
  - cbn. now rewrite app_assoc.
Qed.

Lemma slice_elems_append {A : Type} (s : slice A) (xs : list A) :
  slice_elems (append_slice s xs) = slice_elems s ++ xs.
Proof. destruct s as [|elems]; destruct xs; reflexivity. Qed.

(** X7: [AddRecipient], [AddAttachment] and [AddRemoteAttachment] accumulate:
    the list holds what it held followed by the arguments in call order, and
    two calls in a row do what one call with both argument lists does. *)
Theorem Add_methods_accumulate (any : Type) (m : mail.MailSendRequest any)
    (r1 r2 : list (ptr (mail.MailRecipient any)))
    (a1 a2 : list (ptr mail.MailAttachment))
    (x1 x2 : list (ptr mail.MailAttachmentRemote)) :
  (slice_elems (mail.To (mail.AddRecipient m r1)) = slice_elems (mail.To m) ++ r1
   /\ mail.AddRecipient (mail.AddRecipient m r1) r2 = mail.AddRecipient m (r1 ++ r2))
  /\ (slice_elems (mail.Attachments (mail.AddAttachment m a1))
      = slice_elems (mail.Attachments m) ++ a1
      /\ mail.AddAttachment (mail.AddAttachment m a1) a2 = mail.AddAttachment m (a1 ++ a2))
  /\ (slice_elems (mail.AttachmentsRemote (mail.AddRemoteAttachment m x1))
      = slice_elems (mail.AttachmentsRemote m) ++ x1
      /\ mail.AddRemoteAttachment (mail.AddRemoteAttachment m x1) x2
         = mail.AddRemoteAttachment m (x1 ++ x2)).
Proof.
  unfold mail.AddRecipient, mail.AddAttachment, mail.AddRemoteAttachment.
  cbn [mail.To mail.Attachments mail.AttachmentsRemote mail.TransactionalID
       mail.ReplyTo mail.CustomParameter mail.AddEmailAddressToContact
       mail.ScheduledAt mail.AllowClickTracking mail.AllowOpenTracking
       mail.BypassBounceControl mail.BypassUnsubscribeList mail.EnableViewInBrowser].
  rewrite !slice_elems_append, !append_slice_append. repeat split.
Qed.

(** X8: The [Add] methods called without arguments change nothing, a nil list
    stays nil; called with at least one argument they leave a made list,
    whatever it was before. *)
Theorem Add_methods_empty_and_nil (any : Type) (m : mail.MailSendRequest any) :
  (mail.AddRecipient m [] = m
   /\ mail.AddAttachment m [] = m
   /\ mail.AddRemoteAttachment m [] = m)
  /\ (forall r rs, slice_is_nil (mail.To (mail.AddRecipient m (r :: rs))) = false)
  /\ (forall a atts,
        slice_is_nil (mail.Attachments (mail.AddAttachment m (a :: atts))) = false)
  /\ (forall x xs,
        slice_is_nil (mail.AttachmentsRemote (mail.AddRemoteAttachment m (x :: xs))) = false).
Proof.
  unfold mail.AddRecipient, mail.AddAttachment, mail.AddRemoteAttachment.
  rewrite !append_slice_nil. destruct m as [? to ? ? atts rem ? ? ? ? ? ? ?].
  cbn. repeat split; intros; [destruct to | destruct atts | destruct rem]; reflexivity.
Qed.

(** X9: [SetCustomParameter] on a request whose parameter map is made returns;
    afterwards the key reads as the value, every other key reads as before,
    and the lists of the request are untouched. *)
Theorem SetCustomParameter_then_read (any : Type) (m : mail.MailSendRequest any)
    (key : string) (value : any) :
  map_is_nil (mail.CustomParameter m) = false ->
  exists m' : mail.MailSendRequest any,
    mail.SetCustomParameter m key value = Returned m'
    /\ map_index (mail.CustomParameter m') key = Some value
    /\ (forall other : string, other <> key ->
          map_index (mail.CustomParameter m') other
          = map_index (mail.CustomParameter m) other)
    /\ mail.To m' = mail.To m
    /\ mail.Attachments m' = mail.Attachments m
    /\ mail.AttachmentsRemote m' = mail.AttachmentsRemote m.
Proof.
  intros Hmade. unfold mail.SetCustomParameter.
  destruct (mail.CustomParameter m) as [|params] eqn:Hparams; [discriminate|].
  cbn [map_assign]. eexists. split; [reflexivity|].
  cbn [mail.CustomParameter mail.To mail.Attachments mail.AttachmentsRemote map_index].
  split; [apply lookup_insert_eq|].
  split; [|auto].
  intros other Hother. apply lookup_insert_ne. congruence.
Qed.

Lemma SetCustomParameter_then_read_witness :
  exists m' : mail.MailSendRequest nat,
    mail.SetCustomParameter
      (mail.mkMailSendRequest nat "tx-1" (slice_make []) "" (map_make ∅)
         (slice_make []) (slice_make []) false "" false false false false false)
      "plan" 7
    = Returned m'
    /\ map_index (mail.CustomParameter m') "plan" = Some 7
    /\ (forall other : string, other <> "plan" ->
          map_index (mail.CustomParameter m') other
          = map_index (map_make (∅ : gmap string nat)) other)
    /\ mail.To m' = slice_make []
    /\ mail.Attachments m' = slice_make []
    /\ mail.AttachmentsRemote m' = slice_make [].
Proof.
  apply (SetCustomParameter_then_read nat
           (mail.mkMailSendRequest nat "tx-1" (slice_make []) "" (map_make ∅)
              (slice_make []) (slice_make []) false "" false false false false false)
           "plan" 7).
  reflexivity.
Defined.

(** X10: [SetCustomParameter] panics on a request whose parameter map is nil, as
    in a request declared without [NewMailSendRequest]; the request
    [NewMailSendRequest] gives has a made map, and the call returns. *)
Theorem SetCustomParameter_nil_map (any : Type) (key : string) (value : any) :
  (forall m : mail.MailSendRequest any,
      map_is_nil (mail.CustomParameter m) = true ->
      mail.SetCustomParameter m key value = Panicked "assignment to entry in nil map")
  /\ (exists m0 m' : mail.MailSendRequest any,
        mail.NewMailSendRequest any = Some m0
        /\ mail.SetCustomParameter m0 key value = Returned m'
        /\ map_len (mail.CustomParameter m') = 1).
Proof.
  split.
  - intros m Hnil. unfold mail.SetCustomParameter.
    now destruct (mail.CustomParameter m).
  - eexists _, _. split; [reflexivity|]. split; [reflexivity|].
    cbn [mail.CustomParameter map_len].
    rewrite map_size_insert_None by apply lookup_empty. now rewrite map_size_empty.
Qed.

Lemma SetCustomParameter_nil_map_witness :
  mail.SetCustomParameter
    (mail.mkMailSendRequest nat "" slice_nil "" map_nil slice_nil slice_nil
       false "" false false false false false)
    "plan" 7
  = Panicked "assignment to entry in nil map".
Proof.
  apply (proj1 (SetCustomParameter_nil_map nat "plan" 7)). reflexivity.
Defined.

(** X11: Writing a key twice keeps the last value, and writes to different keys
    can be done in either order. *)
Theorem SetCustomParameter_overwrite_and_commute (any : Type)
    (m m1 : mail.MailSendRequest any) (k1 k2 : string) (v1 v2 : any) :
  mail.SetCustomParameter m k1 v1 = Returned m1 ->
  (mail.SetCustomParameter m1 k1 v2 = mail.SetCustomParameter m k1 v2)
  /\ (k1 <> k2 ->
      exists m2 m12 : mail.MailSendRequest any,
        mail.SetCustomParameter m k2 v2 = Returned m2
        /\ mail.SetCustomParameter m1 k2 v2 = Returned m12
        /\ mail.SetCustomParameter m2 k1 v1 = Returned m12).
Proof.
  unfold mail.SetCustomParameter.
  destruct (mail.CustomParameter m) as [|params] eqn:Hparams; [discriminate|].
  cbn [map_assign]. intros [= <-]. cbn [mail.CustomParameter map_assign
    mail.TransactionalID mail.To mail.ReplyTo mail.Attachments mail.AttachmentsRemote
    mail.AddEmailAddressToContact mail.ScheduledAt mail.AllowClickTracking
    mail.AllowOpenTracking mail.BypassBounceControl mail.BypassUnsubscribeList
    mail.EnableViewInBrowser].
  split.
  - now rewrite insert_insert_eq.
  - intros Hne. eexists _, _. split; [reflexivity|]. split; [reflexivity|].
    assert (Hne' : k2 <> k1) by congruence.
    now rewrite (insert_insert_ne params k2 k1 v2 v1 Hne').
Qed.

Lemma SetCustomParameter_overwrite_and_commute_witness :
  let m := mail.mkMailSendRequest nat "tx-1" (slice_make []) "" (map_make ∅)
             (slice_make []) (slice_make []) false "" false false false false false in
  let m1 := mail.mkMailSendRequest nat "tx-1" (slice_make []) "" (map_make {[ "plan" := 7 ]})
              (slice_make []) (slice_make []) false "" false false false false false in
  (mail.SetCustomParameter m1 "plan" 9 = mail.SetCustomParameter m "plan" 9)
  /\ ("plan" <> "seats" ->
      exists m2 m12 : mail.MailSendRequest nat,
        mail.SetCustomParameter m "seats" 9 = Returned m2
        /\ mail.SetCustomParameter m1 "seats" 9 = Returned m12
        /\ mail.SetCustomParameter m2 "plan" 7 = Returned m12).
Proof.
  intros m m1.
  apply (SetCustomParameter_overwrite_and_commute nat m m1 "plan" "seats" 7 9).
  reflexivity.
Defined.

(** ** More of [ParseEmail] *)

Lemma split_from_cons (s sep : string) (skip : nat) (cur : string) :
  exists (p : string) (more : list string), strings.split_from s sep skip cur = p :: more.
Proof.
  revert skip cur. induction s as [|x s IH]; intros skip cur; [cbn; eauto|].
  cbn [strings.split_from]. destruct skip as [|k]; [|apply IH].
  destruct (strings.HasPrefix (String x s) sep); [eauto | apply IH].
Qed.

(** [Split] at "@" gives the string itself when it has no "@", and two
    parts or more when it has one. *)
Lemma Split_shape (a : string) :
  if one_of a "@"
  then exists (p0 p1 : string) (more : list string),
         strings.Split a "@" = p0 :: p1 :: more
  else strings.Split a "@" = [a].
Proof.
  unfold strings.Split. destruct (first_at a) as [Ha | (x & t & -> & Hx)].
  - rewrite Ha. apply (split_from_no_at a EmptyString Ha).
  - rewrite one_of_append. cbn [one_of]. rewrite Ascii.eqb_refl, orb_true_r.
    rewrite (split_from_at x t EmptyString Hx).
    destruct (split_from_cons t "@" 0 EmptyString) as (p & more & ->). eauto.
Qed.

(** X13: An address of more than 320 bytes is refused with the total-length
    error, whatever its parts, and before it is split. *)
Theorem ParseEmail_too_long (any : Type)
    (mail_ParseAddress : string -> result netmail.Address)
    (s : string) (e : netmail.Address) :
  mail_ParseAddress s = inr e ->
  320 < String.length (netmail.Addr e) ->
  mail.ParseEmail any mail_ParseAddress s = Returned (None, Some total_error).
Proof.
  intros He Hlen. unfold mail.ParseEmail. rewrite He.
  change mail.maxEmailLength with 320.
  apply Nat.ltb_lt in Hlen. now rewrite Hlen.
Qed.

Lemma ParseEmail_too_long_witness :
  mail.ParseEmail unit netmail.ParseAddress
    (repeat_byte "x" 64 +:+ "@" +:+ repeat_byte "d" 256)
  = Returned (None, Some total_error).
Proof.
  apply (ParseEmail_too_long unit netmail.ParseAddress
           (repeat_byte "x" 64 +:+ "@" +:+ repeat_byte "d" 256)
           (netmail.mkAddress EmptyString (repeat_byte "x" 64 +:+ "@" +:+ repeat_byte "d" 256))).
  - vm_compute. reflexivity.
  - vm_compute. lia.
Defined.

(** X14: When every address the parser accepts for the input holds an "@",
    [ParseEmail] returns, and it returns a recipient or an error, never both
    and never neither. *)
Theorem ParseEmail_returns_one_of_two (any : Type)
    (mail_ParseAddress : string -> result netmail.Address) (s : string) :
  (forall e : netmail.Address,
      mail_ParseAddress s = inr e -> one_of (netmail.Addr e) "@" = true) ->
  exists res : ptr (mail.MailRecipient any) * option error,
    mail.ParseEmail any mail_ParseAddress s = Returned res /\ one_of_two res.
Proof.
  intros Hat. destruct (mail_ParseAddress s) as [err | e] eqn:He.
  - eexists. unfold mail.ParseEmail. rewrite He. split; [reflexivity | exact I].
  - pose proof (Split_shape (netmail.Addr e)) as Hshape.
    rewrite (Hat e eq_refl) in Hshape. destruct Hshape as (p0 & p1 & more & Hsplit).
    rewrite (ParseEmail_parts any mail_ParseAddress s e p0 p1 more He Hsplit).
    eexists. split; [reflexivity|].
    destruct (320 <? String.length (netmail.Addr e))%nat; [exact I|].
    destruct (255 <? String.length p1)%nat; [exact I|].
    destruct (64 <? String.length p0)%nat; exact I.
Qed.

Lemma ParseEmail_returns_one_of_two_witness :
  exists res : ptr (mail.MailRecipient unit) * option error,
    mail.ParseEmail unit netmail.ParseAddress "Bob Smith <bob@example.com>" = Returned res
    /\ one_of_two res.
Proof.
  apply (ParseEmail_returns_one_of_two unit netmail.ParseAddress
           "Bob Smith <bob@example.com>").
  intros e He. vm_compute in He. injection He as <-. reflexivity.
Defined.

Lemma ParseEmail_one_at_witness :
  mail.ParseEmail unit netmail.ParseAddress (repeat_byte "x" 65 +:+ "@example.com")
  = Returned (None, Some local_error).
Proof.
  apply (ParseEmail_one_at unit netmail.ParseAddress
           (repeat_byte "x" 65 +:+ "@example.com")
           (netmail.mkAddress EmptyString (repeat_byte "x" 65 +:+ "@example.com"))
           (repeat_byte "x" 65) "example.com"); vm_compute; reflexivity.
Defined.

(** X17: An address with one "@" is accepted exactly when its local part has at
    most 64 bytes and its domain at most 255: the total of 320 follows. *)
Theorem ParseEmail_accepts_iff (any : Type)
    (mail_ParseAddress : string -> result netmail.Address)
    (s : string) (e : netmail.Address) (local domain : string) :
  mail_ParseAddress s = inr e ->
  netmail.Addr e = local +:+ String "@" domain ->
  one_of local "@" = false -> one_of domain "@" = false ->
  (exists rcpt : mail.MailRecipient any,
      mail.ParseEmail any mail_ParseAddress s = Returned (Some rcpt, None))
  <-> String.length local <= 64 /\ String.length domain <= 255.
Proof.
  intros He Haddr HL HD.
  assert (Hsplit : strings.Split (netmail.Addr e) "@" = [local; domain]).
  { rewrite Haddr. unfold strings.Split.
    now rewrite (split_from_at _ _ _ HL), (split_from_no_at _ _ HD). }
  rewrite (ParseEmail_parts any mail_ParseAddress s e local domain [] He Hsplit).
  assert (Hlen : String.length (netmail.Addr e)
                 = String.length local + S (String.length domain)).
  { rewrite Haddr, length_append. reflexivity. }
  destruct (320 <? String.length (netmail.Addr e))%nat eqn:Ht;
    destruct (255 <? String.length domain)%nat eqn:Hd;
    destruct (64 <? String.length local)%nat eqn:Hl;
    rewrite ?Nat.ltb_lt, ?Nat.ltb_ge in *;
    (split; [intros (rcpt & [=]); try lia | intros [? ?]; try lia]).
  eexists. reflexivity.
Qed.

Lemma ParseEmail_accepts_iff_witness :
  (exists rcpt : mail.MailRecipient unit,
      mail.ParseEmail unit netmail.ParseAddress
        (repeat_byte "x" 64 +:+ "@" +:+ repeat_byte "d" 255)
      = Returned (Some rcpt, None))
  <-> String.length (repeat_byte "x" 64) <= 64 /\ String.length (repeat_byte "d" 255) <= 255.
Proof.
  apply (ParseEmail_accepts_iff unit netmail.ParseAddress
           (repeat_byte "x" 64 +:+ "@" +:+ repeat_byte "d" 255)
           (netmail.mkAddress EmptyString (repeat_byte "x" 64 +:+ "@" +:+ repeat_byte "d" 255))
           (repeat_byte "x" 64) (repeat_byte "d" 255)); vm_compute; reflexivity.
Defined.

(** X18: A recipient that [ParseEmail] returns comes without an error and is
    the new recipient of the parsed name and address: [Name] and [Email] are
    the parser's, the attribute map and the two lists are made and empty;
    the address has at most 320 bytes and holds an "@". *)
Theorem ParseEmail_recipient (any : Type)
    (mail_ParseAddress : string -> result netmail.Address)
    (s : string) (rcpt : mail.MailRecipient any) (err : option error) :
  mail.ParseEmail any mail_ParseAddress s = Returned (Some rcpt, err) ->
  exists e : netmail.Address,
    mail_ParseAddress s = inr e
    /\ err = None
    /\ mail.NewMailRecipient any (netmail.Name e) (netmail.Addr e) = Some rcpt
    /\ (mail.Name rcpt = netmail.Name e /\ mail.Email rcpt = netmail.Addr e)
    /\ (mail.Attributes rcpt = map_make ∅
        /\ mail.Lists rcpt = slice_make [] /\ mail.Tags rcpt = slice_make [])
    /\ String.length (netmail.Addr e) <= 320
    /\ one_of (netmail.Addr e) "@" = true.
Proof.
  intros H. destruct (mail_ParseAddress s) as [perr | e] eqn:He.
  { unfold mail.ParseEmail in H. rewrite He in H. discriminate. }
  exists e. split; [reflexivity|].
  pose proof (Split_shape (netmail.Addr e)) as Hshape.
  destruct (one_of (netmail.Addr e) "@") eqn:Hat.
  - destruct Hshape as (p0 & p1 & more & Hsplit).
    rewrite (ParseEmail_parts any mail_ParseAddress s e p0 p1 more He Hsplit) in H.
    destruct (320 <? String.length (netmail.Addr e))%nat eqn:Ht; [discriminate|].
    destruct (255 <? String.length p1)%nat; [discriminate|].
    destruct (64 <? String.length p0)%nat; [discriminate|].
    apply Nat.ltb_ge in Ht. injection H as H <-. subst rcpt.
    repeat split. exact Ht.
  - exfalso. unfold mail.ParseEmail in H. rewrite He, Hshape in H.
    destruct (mail.maxEmailLength <? String.length (netmail.Addr e))%nat; discriminate.
Qed.

Lemma ParseEmail_recipient_witness :
  let rcpt := mail.mkMailRecipient unit "bob@example.com" "Bob Smith" "" "" ""
                (map_make ∅) (slice_make []) (slice_make []) "" 0%Z
                "" "" "" "" "" "" "" "" "" "" "" in
  exists e : netmail.Address,
    netmail.ParseAddress "Bob Smith <bob@example.com>" = inr e
    /\ @None error = None
    /\ mail.NewMailRecipient unit (netmail.Name e) (netmail.Addr e) = Some rcpt
    /\ (mail.Name rcpt = netmail.Name e /\ mail.Email rcpt = netmail.Addr e)
    /\ (mail.Attributes rcpt = map_make ∅
        /\ mail.Lists rcpt = slice_make [] /\ mail.Tags rcpt = slice_make [])
    /\ String.length (netmail.Addr e) <= 320
    /\ one_of (netmail.Addr e) "@" = true.
Proof.
  intros rcpt.
  apply (ParseEmail_recipient unit netmail.ParseAddress "Bob Smith <bob@example.com>"
           rcpt None).
  vm_compute. reflexivity.
Defined.

(** ** Chains of builder calls *)

(** X12: Two builder calls that write different fields can be made in either
    order, and of two [Set] calls on one field the second decides. *)
Theorem builder_calls_commute (any : Type) (c1 c2 : builder_call any)
    (m : mail.MailSendRequest any) :
  (written_field c1 <> written_field c2 ->
   run_call c2 (run_call c1 m) = run_call c1 (run_call c2 m))
  /\ (written_field c1 = written_field c2 -> is_setter c2 = true ->
      run_call c2 (run_call c1 m) = run_call c2 m).
Proof.
  split.
  - intros Hne. destruct c1, c2; try reflexivity; cbn in Hne; congruence.
  - intros Heq Hset. destruct c1, c2; try discriminate; reflexivity.
Qed.

Lemma builder_calls_commute_witness :
  let m := mail.mkMailSendRequest unit "tx-1" (slice_make []) "" (map_make ∅)
             (slice_make []) (slice_make []) false "" false false false false false in
  run_call (call_SetReplyTo "help@example.com")
    (run_call (call_AddRecipient [mail.NewMailRecipient unit "Bob" "bob@example.com"]) m)
  = run_call (call_AddRecipient [mail.NewMailRecipient unit "Bob" "bob@example.com"])
      (run_call (call_SetReplyTo "help@example.com") m).
Proof.
  intros m.
  apply (proj1 (builder_calls_commute unit
                  (call_AddRecipient [mail.NewMailRecipient unit "Bob" "bob@example.com"])
                  (call_SetReplyTo "help@example.com") m)).
  cbn. lia.
Defined.
